(** * whitesource-api-extension: the websocket scan session and the agent cache

    A shallow embedding of [whitesource_backend/component.py] (the
    [Component.on_websocket] handler and its helpers) and of
    [whitesource_backend/util.py] (the agent cache), followed by the
    properties of the ingestion protocol.

    Python values are modelled as follows: [int] is [Z] (unbounded), [bytes]
    is [list byte], [str] is [string]; exceptions are the constructors of
    [exn]; the handler is a computation in a small state-and-exception monad
    that also records, in order, every call it makes on the outside world. *)

From Stdlib Require Import ZArith QArith Qabs List Bool Lia.
From Stdlib.Strings Require Import String Ascii Byte.
Import ListNotations.
Local Open Scope string_scope.
Local Open Scope Z_scope.
Local Open Scope list_scope.

(** ** Python string primitives used by the handler *)

Module Py.

(** [s.endswith(suf)]: some suffix of [s] is [suf]. *)
Fixpoint endswith (s suf : string) : bool :=
  String.eqb s suf ||
  match s with
  | EmptyString => false
  | String _ s' => endswith s' suf
  end.

(** [s.startswith(pre)]. *)
Definition startswith (s pre : string) : bool := String.prefix pre s.

(** [s.replace(old, new)] for a non-empty [old]: every non-overlapping
    occurrence of [old], scanning from the left, is replaced by [new].
    [skip] counts the characters of a matched occurrence still to be
    dropped. *)
Fixpoint replace_from (old new : string) (skip : nat) (s : string) : string :=
  match s with
  | EmptyString => EmptyString
  | String c s' =>
      match skip with
      | S k => replace_from old new k s'
      | O =>
          if String.prefix old s
          then (new ++ replace_from old new (String.length old - 1) s')%string
          else String c (replace_from old new 0 s')
      end
  end.

Definition replace (s old new : string) : string := replace_from old new 0 s.

(** [s.split('/')]. *)
Fixpoint split_sep (s : string) : list string :=
  match s with
  | EmptyString => [EmptyString]
  | String c s' =>
      if Ascii.eqb c "/"%char then EmptyString :: split_sep s'
      else match split_sep s' with
           | [] => [String c EmptyString]
           | h :: t => String c h :: t
           end
  end.

(** [os.path.join(a, b)] on a POSIX system. *)
Definition path_join (a b : string) : string :=
  if startswith b "/" then b
  else if String.eqb a "" || endswith a "/" then (a ++ b)%string
  else (a ++ "/" ++ b)%string.

(** [str(n)] for an [int]. *)
Definition digit (d : Z) : ascii := ascii_of_nat (48 + Z.to_nat d).

Fixpoint digits (fuel : nat) (n : Z) (acc : string) : string :=
  match fuel with
  | O => acc
  | S f =>
      let acc' := String (digit (n mod 10)) acc in
      if n <? 10 then acc' else digits f (n / 10) acc'
  end.

Definition str_of_nonneg (n : Z) : string := digits (S (Z.to_nat n)) n "".

Definition str (n : Z) : string :=
  if n <? 0 then ("-" ++ str_of_nonneg (- n))%string else str_of_nonneg n.

(** [x or ''] for a [str] [x]: the empty string is falsy. *)
Definition or_empty (x : string) : string :=
  if String.eqb x "" then "" else x.

End Py.

(** [b.decode('utf-8')] (strict): the well-formed byte sequences of UTF-8.
    A decoded [str] is represented by the bytes of its UTF-8 encoding. *)
Module Utf8.

Definition between (lo hi : N) (b : byte) : bool :=
  ((lo <=? Byte.to_N b) && (Byte.to_N b <=? hi))%N.

Definition cont (b : byte) : bool := between 0x80 0xBF b.

(** The range allowed for the second byte after a three- or four-byte
    lead: no overlong forms, no surrogates, nothing above U+10FFFF. *)
Definition second_ok (b0 b1 : byte) : bool :=
  if between 0xE0 0xE0 b0 then between 0xA0 0xBF b1
  else if between 0xED 0xED b0 then between 0x80 0x9F b1
  else if between 0xF0 0xF0 b0 then between 0x90 0xBF b1
  else if between 0xF4 0xF4 b0 then between 0x80 0x8F b1
  else cont b1.

Fixpoint valid (bs : list byte) : bool :=
  match bs with
  | [] => true
  | b0 :: r0 =>
      if between 0x00 0x7F b0 then valid r0
      else
        match r0 with
        | [] => false
        | b1 :: r1 =>
            if between 0xC2 0xDF b0 then cont b1 && valid r1
            else
              match r1 with
              | [] => false
              | b2 :: r2 =>
                  if between 0xE0 0xEF b0
                  then second_ok b0 b1 && cont b2 && valid r2
                  else
                    match r2 with
                    | [] => false
                    | b3 :: r3 =>
                        between 0xF0 0xF4 b0 && second_ok b0 b1
                        && cont b2 && cont b3 && valid r3
                    end
              end
        end
  end.

End Utf8.

(** ** Exceptions and results *)

Inductive exn : Type :=
| WebSocketDisconnected   (* falcon.WebSocketDisconnected *)
| PayloadTypeError        (* falcon.PayloadTypeError *)
| JSONDecodeError         (* json.decoder.JSONDecodeError *)
| MissingValueError       (* dacite.exceptions.MissingValueError *)
| ReadError               (* tarfile.ReadError *)
| InvalidHeaderError      (* tarfile.InvalidHeaderError *)
| StreamError             (* tarfile.StreamError *)
| UnicodeDecodeError
| KeyError
| HTTPError               (* requests.exceptions.HTTPError *)
| RuntimeError (msg : string)
| AttributeError
| OtherError (what : string).

Inductive result (A : Type) : Type :=
| Ok (a : A)
| Raise (e : exn).
Arguments Ok {A} a.
Arguments Raise {A} e.

(** ** The wire messages ([whitesource_common.protocol]) and [model] *)

Module protocol.

(** [WhiteSourceApiExtensionWebsocketMetadata]; the handler reads the two
    fields [length] and [chunkSize]. *)
Record WhiteSourceApiExtensionWebsocketMetadata : Type := {
  length : Z;
  chunkSize : Z;
}.

(** [WhiteSourceApiExtensionWebsocketWSConfig]; [extraWsConfig] is a
    dictionary in insertion order, the empty one (or [None]) being falsy. *)
Record WhiteSourceApiExtensionWebsocketWSConfig : Type := {
  apiKey : string;
  extraWsConfig : list (string * string);
  productToken : string;
  projectName : string;
  requesterEmail : string;
  userKey : string;
  wssUrl : string;
}.

(** [WhiteSourceApiExtensionStatusCodeReasons]: the close codes the handler
    uses. Their numeric values are fixed by the client library. *)
Inductive WhiteSourceApiExtensionStatusCodeReasons : Type :=
| CONTRACT_VIOLATION
| CHUNK_SIZE_TOO_BIG
| BINARY_CORRUPTED.

End protocol.

Abbreviation Metadata := protocol.WhiteSourceApiExtensionWebsocketMetadata.
Abbreviation WSConfig := protocol.WhiteSourceApiExtensionWebsocketWSConfig.
Abbreviation StatusCode := protocol.WhiteSourceApiExtensionStatusCodeReasons.

Module model.

Record ScanResult : Type := {
  successful : bool;
  message : string;
}.

End model.

(** [subprocess.CompletedProcess] of a run with [capture_output=True]. *)
Record CompletedProcess : Type := {
  returncode : Z;
  stdout : list byte;
  stderr : list byte;
}.

(** ** Archives as the [tarfile] module presents them

    A member as [TarFile.next()] returns it, with the bytes that extracting
    it writes. *)
Record TarInfo : Type := {
  name : string;
  data : list byte;
}.

(** What a stream-mode [TarFile] does on successive [next()] calls: it
    returns a member, whose extraction either succeeds or raises [fault],
    or [next()] itself raises. The end of the list is [next()] returning
    [None]. *)
Inductive tar_step : Type :=
| Member (tar_info : TarInfo) (fault : option exn)
| NextRaises (e : exn).

(** A websocket message sent by the client. *)
Inductive frame : Type :=
| TextFrame (payload : string)
| BinaryFrame (payload : list byte).

(** Work handed to a background thread. *)
Inductive task : Type :=
| PullLatest (wss_agent_path : string).

(** What happens when [pull_latest_wss_agent] talks to the network and the
    file system. *)
Inductive fetch_outcome : Type :=
| Fetched
    (* the download and the move into place succeed *)
| TmpFileFailed
    (* [tempfile.NamedTemporaryFile] raises: [tmp_file] is still [None] *)
| DownloadFailed (e : exn)
    (* the temporary file exists and the request or the copy of its body
       raises [e] *)
| MoveFailed (e : exn).
    (* the body is downloaded and [shutil.move] raises [e], leaving the
       destination as it was *)

(** ** The calls the code makes on the outside world, in order

    [TarExtract] records a call [f.extract(tar_info, path=path,
    set_attrs=False)] with its outcome: [None] when the member was
    extracted, the exception when the call raised. [WsSendText] is a text
    message handed to the connection and [OsLink] a link that was made: a
    send that finds the peer gone and an [os.link] that finds its
    destination taken raise without leaving an event. [ShutilMove] is the
    call of [shutil.move], whether it returns or raises. *)

Inductive event : Type :=
| WsAccept
| WsReceiveText
| WsReceiveData
| WsClose (code : StatusCode)
| WsSendText (payload : string)
| LogInfo (logger msg : string)
| LogWarn (logger msg : string)
| LogError (logger msg : string)
| LogProgress (logger : string) (received length : Z)
| TmpDirCreate (path : string)
| TmpDirCleanup (path : string)
| FileWrite (chunk : list byte)
| TarExtract (tar_info : TarInfo) (path : string) (fault : option exn)
| OsRemove (path : string)
| OsLink (src dst : string)
| OsUnlink (path : string)
| ConfigAppend (path text : string)
| SubprocessRun (args : list string) (cwd : string)
| ThreadStart (t : task)
| HttpGet (url : string)
| ShutilMove (dst : string).

(** ** The outside world

    Everything the handler calls that is not part of the repository's
    sources: the JSON and dataclass decoding of the two control messages,
    the [tarfile] reader, the file system, the temporary directory, the
    constants of [paths], the subprocess runner, the clock and the
    download. Theorems quantify over all worlds. *)
Record World : Type := {
  (** [dacite.from_dict(data_class=..., data=json.loads(text))] *)
  decode_metadata : string -> result Metadata;
  decode_config : string -> result WSConfig;
  (** [json.dumps(dataclasses.asdict(res))] *)
  json_dumps : model.ScanResult -> string;
  (** [tarfile.open(..., mode='r|*', bufsize=1024)] on the given bytes: it
      raises, or yields the stream of [next()] results *)
  tar_open : list byte -> result (list tar_step);
  (** the file system: the effect of a successful [extract], [os.listdir],
      reading a file by path, [os.remove] *)
  fs : Type;
  fs_extract : string -> TarInfo -> fs -> fs;
  fs_listdir : string -> fs -> list string;
  fs_read : string -> fs -> result (list byte);
  fs_remove : string -> fs -> fs;
  (** what an [extract] that raises has left behind by then (directories
      made on the way, a partial file), and whether a path exists *)
  fs_partial : string -> TarInfo -> exn -> fs -> fs;
  fs_exists : string -> fs -> bool;
  (** what else makes [os.link(src, dst)] fail, such as a link across file
      systems *)
  link_fault : string -> string -> option exn;
  (** the directory [tempfile.TemporaryDirectory()] creates and the name
      of the file [tempfile.NamedTemporaryFile(delete=False)] creates *)
  mkdtemp : string;
  mkstemp : string;
  (** [paths.wss_agent_path], [paths.wss_agent_name], [paths.java_path] *)
  wss_agent_path : string;
  wss_agent_name : string;
  java_path : string;
  (** [subprocess.run(args, cwd=cwd, ...)] *)
  subprocess_run : list string -> string -> fs -> result CompletedProcess;
  (** [datetime.datetime.now()], in microseconds *)
  clock : Z;
  (** the fate of a download attempt *)
  fetch : fetch_outcome;
}.

Definition ws_agent_url : string :=
  "https://github.com/whitesource/unified-agent-distribution/releases/latest/download/wss-unified-agent.jar".

Definition nl : string := String (ascii_of_nat 10) EmptyString.

Section Backend.

Variable W : World.

(** The state the code reads and changes: the messages the client has sent
    and the handler has not yet received (a receive on the empty inbox finds
    the peer gone), the file system, the modification time of the
    canonical agent file, in microseconds, when that file exists, and the
    number of text messages the peer still takes before a send finds it
    gone. *)
Record state : Type := {
  inbox : list frame;
  disk : fs W;
  agent_mtime : option Z;
  listening : nat;
}.

Definition set_inbox (i : list frame) (s : state) : state :=
  {| inbox := i; disk := disk s; agent_mtime := agent_mtime s;
     listening := listening s |}.

Definition set_disk (d : fs W) (s : state) : state :=
  {| inbox := inbox s; disk := d; agent_mtime := agent_mtime s;
     listening := listening s |}.

Definition set_agent_mtime (m : option Z) (s : state) : state :=
  {| inbox := inbox s; disk := disk s; agent_mtime := m;
     listening := listening s |}.

Definition set_listening (n : nat) (s : state) : state :=
  {| inbox := inbox s; disk := disk s; agent_mtime := agent_mtime s;
     listening := n |}.

(** *** The monad: state, exceptions and the trace of calls *)

Definition M (A : Type) : Type := state -> list event * result A * state.

Definition ret {A} (a : A) : M A := fun s => ([], Ok a, s).

Definition bind {A B} (m : M A) (k : A -> M B) : M B :=
  fun s =>
    let '(t1, r, s1) := m s in
    match r with
    | Ok a => let '(t2, r2, s2) := k a s1 in (t1 ++ t2, r2, s2)
    | Raise e => (t1, Raise e, s1)
    end.

Definition raise {A} (e : exn) : M A := fun s => ([], Raise e, s).

Definition emit (ev : event) : M unit := fun s => ([ev], Ok tt, s).

Definition get : M state := fun s => ([], Ok s, s).

Definition modify (f : state -> state) : M unit := fun s => ([], Ok tt, f s).

Definition lift {A} (r : result A) : M A := fun s => ([], r, s).

(** Runs [m] and hands its result over as a value: the body of a [try]. *)
Definition catch {A} (m : M A) : M (result A) :=
  fun s => let '(t, r, s1) := m s in (t, Ok r, s1).

(** [try: m finally: cleanup] (also the exit of a [with] block). *)
Definition finally {A} (m : M A) (cleanup : M unit) : M A :=
  fun s =>
    let '(t1, r, s1) := m s in
    let '(t2, r2, s2) := cleanup s1 in
    match r2 with
    | Ok _ => (t1 ++ t2, r, s2)
    | Raise e => (t1 ++ t2, Raise e, s2)
    end.

Notation "x <- m ;; k" := (bind m (fun x => k))
  (at level 100, m at next level, right associativity).
Notation "m ;; k" := (bind m (fun _ => k))
  (at level 100, right associativity).

(** [for x in xs: body(x)] *)
Fixpoint for_each {A} (xs : list A) (body : A -> M unit) : M unit :=
  match xs with
  | [] => ret tt
  | x :: rest => body x ;; for_each rest body
  end.

(** *** The websocket *)

Definition ws_accept : M unit := emit WsAccept.

Definition ws_receive_text : M string :=
  fun s =>
    match inbox s with
    | [] => ([WsReceiveText], Raise WebSocketDisconnected, s)
    | TextFrame text :: rest => ([WsReceiveText], Ok text, set_inbox rest s)
    | BinaryFrame _ :: rest => ([WsReceiveText], Raise PayloadTypeError, set_inbox rest s)
    end.

Definition ws_receive_data : M (list byte) :=
  fun s =>
    match inbox s with
    | [] => ([WsReceiveData], Raise WebSocketDisconnected, s)
    | BinaryFrame chunk :: rest => ([WsReceiveData], Ok chunk, set_inbox rest s)
    | TextFrame _ :: rest => ([WsReceiveData], Raise PayloadTypeError, set_inbox rest s)
    end.

Definition ws_close (code : StatusCode) : M unit := emit (WsClose code).

(** [ws.send_text(payload)]: falcon raises [WebSocketDisconnected] once
    the connection is lost, before anything is sent. *)
Definition ws_send_text (payload : string) : M unit :=
  fun s =>
    match listening s with
    | O => ([], Raise WebSocketDisconnected, s)
    | S n => ([WsSendText payload], Ok tt, set_listening n s)
    end.

(** ** util.py: the agent cache *)

Definition log_info (logger msg : string) : M unit := emit (LogInfo logger msg).

(** [shutil.move(src=tmp_file.name, dst=dst)] when it returns: a download
    moved to [paths.wss_agent_path] gives the canonical file the
    modification time of the download; moved elsewhere it leaves the
    canonical file alone. *)
Definition moved_to (dst : string) (s : state) : state :=
  if String.eqb dst (wss_agent_path W)
  then set_agent_mtime (Some (clock W)) s
  else s.

(** [pull_latest_wss_agent(wss_agent_path)]: the [try] block, then the
    [except Exception] handler, which unlinks [tmp_file.name] (an
    [AttributeError] when [tmp_file] is still [None]) and raises
    [RuntimeError]. *)
Definition pull_latest_wss_agent (wss_agent_path : string) : M unit :=
  r <- catch
         match fetch W with
         | TmpFileFailed => raise (OtherError "NamedTemporaryFile")
         | DownloadFailed e => emit (HttpGet ws_agent_url) ;; raise e
         | MoveFailed e =>
             emit (HttpGet ws_agent_url) ;;
             log_info "util" "agent downloaded. Moving it to tmp dir..." ;;
             emit (ShutilMove wss_agent_path) ;;
             raise e
         | Fetched =>
             emit (HttpGet ws_agent_url) ;;
             log_info "util" "agent downloaded. Moving it to tmp dir..." ;;
             emit (ShutilMove wss_agent_path) ;;
             modify (moved_to wss_agent_path) ;;
             log_info "util" "ws agent pulled successfully."
         end ;;
  match r with
  | Ok _ => ret tt
  | Raise _ =>
      emit (LogError "util" "an error occured while pulling ws agent") ;;
      match fetch W with
      | TmpFileFailed => raise AttributeError
      | _ =>
          emit (OsUnlink (mkstemp W)) ;;
          raise (RuntimeError "error pulling wss agent")
      end
  end.

(** 24 hours, in microseconds. *)
Definition max_age : Z := 24 * 3600 * 1000000.

(** [update_or_download_agent()]. [threading.Thread(...).start()] only
    records the task: the caller does not wait for it. *)
Definition update_or_download_agent : M unit :=
  s <- get ;;
  match agent_mtime s with
  | Some modification_date =>
      if modification_date <? clock W - max_age then
        log_info "util" "ws agent is older than 24 hours. Agent will be updated..." ;;
        emit (ThreadStart (PullLatest (wss_agent_path W)))
      else
        log_info "util"
          ("wss agent is up to date and present on file system paths.wss_agent_path='"
           ++ wss_agent_path W ++ "'. Using this one...")%string
  | None =>
      r <- catch
             (log_info "util" "wss agent not found on file system. Pulling it now..." ;;
              pull_latest_wss_agent (wss_agent_path W)) ;;
      match r with
      | Ok _ => ret tt
      | Raise HTTPError =>
          emit (LogError "util" "could not download ws agent. Keeping the current one...")
      | Raise e => raise e
      end
  end.

(** The run of a started thread: an exception raised by its target ends
    the thread and reaches nobody else. *)
Definition thread_run (t : task) : M unit :=
  catch
    match t with
    | PullLatest p => pull_latest_wss_agent p
    end ;;
  ret tt.

(** [os.link(src=paths.wss_agent_path, dst=dst)]: it needs its source,
    refuses a destination that exists, and may fail for a reason of the
    file system. *)
Definition os_link_agent (dst : string) : M unit :=
  s <- get ;;
  match agent_mtime s with
  | None => raise (OtherError "FileNotFoundError")
  | Some _ =>
      if fs_exists W dst (disk s) then raise (OtherError "FileExistsError")
      else
        match link_fault W (wss_agent_path W) dst with
        | Some e => raise e
        | None => emit (OsLink (wss_agent_path W) dst)
        end
  end.

(** [get_wss_agent_hardlink(tmp_dir)] *)
Definition get_wss_agent_hardlink (tmp_dir : string) : M string :=
  update_or_download_agent ;;
  let wss_agent_hardlink_path := Py.path_join tmp_dir (wss_agent_name W) in
  os_link_agent wss_agent_hardlink_path ;;
  ret wss_agent_hardlink_path.

(** ** component.py: running the agent *)

Definition subprocess (args : list string) (cwd : string) : M CompletedProcess :=
  emit (SubprocessRun args cwd) ;;
  s <- get ;;
  lift (subprocess_run W args cwd (disk s)).

Definition generate_config (wss_agent_dir java_path : string) : M unit :=
  log_info "component" "generating config" ;;
  let wss_agent_path := Py.path_join wss_agent_dir (wss_agent_name W) in
  subprocess [java_path; "-jar"; wss_agent_path; "-detect"] wss_agent_dir ;;
  ret tt.

Definition _add_configuration (file : string) (ws_config : WSConfig) : M unit :=
  for_each
    [ ("requesterEmail=" ++ protocol.requesterEmail ws_config)%string;
      "go.collectDependenciesAtRuntime=true";
      "failErrorLevel=ALL";
      "fileSystemScan=true";
      "resolveAllDependencies=true";
      "python.installVirtualEnv=true" ]
    (fun e => emit (ConfigAppend file (nl ++ e)%string)).

Definition run_whitesource_scan
    (wss_agent_dir component_path java_path : string)
    (ws_config : WSConfig) (config_path : string) : M CompletedProcess :=
  let wss_agent_path := Py.path_join wss_agent_dir (wss_agent_name W) in
  subprocess
    [ java_path; "-Xms256m"; "-Xmx512m";
      "-jar"; wss_agent_path;
      "-c"; config_path;
      "-d"; component_path;
      "-apiKey"; protocol.apiKey ws_config;
      "-userKey"; protocol.userKey ws_config;
      "-wss.url"; protocol.wssUrl ws_config;
      "-productToken"; protocol.productToken ws_config;
      "-project"; protocol.projectName ws_config ]
    wss_agent_dir.

Definition _scan_component
    (wss_agent_dir component_path : string) (ws_config : WSConfig)
    (plogger : string) : M CompletedProcess :=
  generate_config wss_agent_dir (java_path W) ;;
  let config_file := Py.path_join wss_agent_dir "wss-generated-file.config" in
  _add_configuration config_file ws_config ;;
  for_each (protocol.extraWsConfig ws_config)
    (fun '(key, value) =>
       emit (ConfigAppend config_file (nl ++ key ++ "=" ++ value)%string)) ;;
  log_info plogger "agent start" ;;
  run_whitesource_scan wss_agent_dir component_path (java_path W) ws_config config_file.

Definition _build_scan_result_response (successful : bool) (message : string)
  : model.ScanResult :=
  {| model.successful := successful; model.message := message |}.

(** [b.decode('utf-8')] *)
Definition decode_utf8 (b : list byte) : M string :=
  if Utf8.valid b then ret (string_of_list_byte b) else raise UnicodeDecodeError.

(** ** component.py: [Component.on_websocket] *)

(** The two control messages (the inner [try] block). *)
Definition receive_control : M (Metadata * WSConfig) :=
  text <- ws_receive_text ;;
  metadata <- lift (decode_metadata W text) ;;
  log_info "component" "receiving whitesource config..." ;;
  text <- ws_receive_text ;;
  ws_config <- lift (decode_config W text) ;;
  ret (metadata, ws_config).

(** The receive loop [while received < metadata.length], run on the
    messages still in the inbox: each round receives a chunk, writes all of
    it to the staging file and adds its size to [received]. The progress
    line (formatted with [util.sizeof_fmt]) is recorded by its two
    counters. The result is the final [received], the contents of the
    staging file and the messages left. *)
Fixpoint receive_chunks (plogger : string) (length received : Z)
    (tar_file : list byte) (frames : list frame) {struct frames}
  : list event * result (Z * list byte) * list frame :=
  if received <? length then
    match frames with
    | [] => ([WsReceiveData], Raise WebSocketDisconnected, [])
    | TextFrame _ :: rest => ([WsReceiveData], Raise PayloadTypeError, rest)
    | BinaryFrame chunk :: rest =>
        let '(t, r, remaining) :=
          receive_chunks plogger length
            (received + Z.of_nat (List.length chunk)) (tar_file ++ chunk) rest in
        (WsReceiveData :: FileWrite chunk :: LogProgress plogger received length :: t,
         r, remaining)
    end
  else ([], Ok (received, tar_file), frames).

Definition receive_payload (plogger : string) (length : Z) : M (Z * list byte) :=
  fun s =>
    let '(t, r, remaining) := receive_chunks plogger length 0 [] (inbox s) in
    (t, r, set_inbox remaining s).

(** [while tar_info := f.next(): f.extract(tar_info, path=path, set_attrs=False)] *)
Fixpoint extract_members (path : string) (f : list tar_step) : M unit :=
  match f with
  | [] => ret tt
  | NextRaises e :: _ => raise e
  | Member tar_info fault :: rest =>
      emit (TarExtract tar_info path fault) ;;
      match fault with
      | Some e =>
          modify (fun s => set_disk (fs_partial W path tar_info e (disk s)) s) ;;
          raise e
      | None =>
          modify (fun s => set_disk (fs_extract W path tar_info (disk s)) s) ;;
          extract_members path rest
      end
  end.

(** [tarfile.open(name, mode='r|*', bufsize=1024)] on a file of the disk. *)
Definition tarfile_open (name : string) : M (list tar_step) :=
  s <- get ;;
  content <- lift (fs_read W name (disk s)) ;;
  lift (tar_open W content).

Definition os_remove (path : string) : M unit :=
  emit (OsRemove path) ;;
  modify (fun s => set_disk (fs_remove W path (disk s)) s).

(** The body of [for file in os.listdir(tmp_dir)]. *)
Definition extract_layer (plogger tmp_dir file : string) : M unit :=
  if Py.endswith file ".tar" then
    f <- tarfile_open (Py.path_join tmp_dir file) ;;
    r <- catch (extract_members (Py.path_join tmp_dir (Py.replace file ".tar" "")) f) ;;
    match r with
    | Ok _ => ret tt
    | Raise StreamError => emit (LogWarn plogger "skipping duplicate (probably symlink)")
    | Raise KeyError => emit (LogWarn plogger "linkname not found, skipping")
    | Raise e => raise e
    end ;;
    os_remove (Py.path_join tmp_dir file)
  else ret tt.

(** The outer [try] block: the top archive, then each layer. *)
Definition extract_archive (plogger tmp_dir : string) (tar_file : list byte) : M unit :=
  f <- lift (tar_open W tar_file) ;;
  extract_members tmp_dir f ;;
  s <- get ;;
  for_each (fs_listdir W tmp_dir (disk s)) (extract_layer plogger tmp_dir).

(** The answer to the client, from the agent's [CompletedProcess]. *)
Definition respond (result : CompletedProcess) : M unit :=
  agent_log_str <-
    (if returncode result =? 0 then
       out <- decode_utf8 (stdout result) ;;
       ret (Py.or_empty out)
     else
       err <- decode_utf8 (stderr result) ;;
       out <- decode_utf8 (stdout result) ;;
       ret (Py.or_empty err ++ Py.or_empty out)%string) ;;
  let res :=
    _build_scan_result_response
      (if returncode result =? 0 then true else false) agent_log_str in
  ws_send_text (Py.str (returncode result)) ;;
  ws_send_text (json_dumps W res).

(** From ['scan start'] to the two answers. *)
Definition scan_and_respond (plogger tmp_dir : string) (ws_config : WSConfig) : M unit :=
  log_info plogger "scan start" ;;
  wss_agent_hardlink_path <- get_wss_agent_hardlink tmp_dir ;;
  result <- _scan_component tmp_dir tmp_dir ws_config plogger ;;
  emit (OsUnlink wss_agent_hardlink_path) ;;
  respond result.

(** The body of [with tempfile.TemporaryDirectory() as tmp_dir]. *)
Definition ingest_and_scan (plogger tmp_dir : string)
    (metadata : Metadata) (ws_config : WSConfig) : M unit :=
  log_info plogger "transfer start" ;;
  staged <- receive_payload plogger (protocol.length metadata) ;;
  let '(received, tar_file) := staged in
  emit (LogProgress plogger received (protocol.length metadata)) ;;
  log_info plogger "transfer done" ;;
  r <- catch (extract_archive plogger tmp_dir tar_file) ;;
  match r with
  | Ok _ => scan_and_respond plogger tmp_dir ws_config
  | Raise ReadError | Raise UnicodeDecodeError | Raise InvalidHeaderError =>
      ws_close protocol.BINARY_CORRUPTED
  | Raise e => raise e
  end.

(** The handler once both control messages are decoded: the chunk-size
    check, then the scratch directory and everything done inside it. *)
Definition session (metadata : Metadata) (ws_config : WSConfig) : M unit :=
  let plogger := protocol.projectName ws_config in
  if protocol.chunkSize metadata >? protocol.length metadata then
    ws_close protocol.CHUNK_SIZE_TOO_BIG
  else
    let tmp_dir := mkdtemp W in
    emit (TmpDirCreate tmp_dir) ;;
    finally
      (ingest_and_scan plogger tmp_dir metadata ws_config)
      (emit (TmpDirCleanup tmp_dir)).

Definition on_websocket : M unit :=
  r <- catch
         (ws_accept ;;
          log_info "component" "receiving metadata..." ;;
          r <- catch receive_control ;;
          match r with
          | Raise JSONDecodeError | Raise MissingValueError =>
              ws_close protocol.CONTRACT_VIOLATION
          | Raise e => raise e
          | Ok (metadata, ws_config) => session metadata ws_config
          end) ;;
  match r with
  | Raise WebSocketDisconnected => ret tt
  | Raise e => raise e
  | Ok _ => ret tt
  end.

End Backend.

Arguments inbox {W} s.
Arguments disk {W} s.
Arguments agent_mtime {W} s.
Arguments set_inbox {W} i s.
Arguments set_disk {W} d s.
Arguments set_agent_mtime {W} m s.
Arguments listening {W} s.
Arguments set_listening {W} n s.
Arguments ret {W A} a.
Arguments bind {W A B} m k.
Arguments raise {W A} e.
Arguments emit {W} ev.
Arguments get {W}.
Arguments modify {W} f.
Arguments lift {W A} r.
Arguments catch {W A} m.
Arguments finally {W A} m cleanup.
Arguments for_each {W A} xs body.

(** ** Where an extracted member lands

    [TarFile.extract(member, path)] writes to [os.path.join(path,
    member.name)]; the operating system then resolves the components of
    that path. [resolve] is the lexical resolution of an absolute path
    (symbolic links apart): empty and [.] components are dropped and [..]
    removes the component before it. *)

Definition target (path : string) (tar_info : TarInfo) : string :=
  Py.path_join path (name tar_info).

Definition resolve_step (acc : list string) (c : string) : list string :=
  if String.eqb c "" || String.eqb c "." then acc
  else if String.eqb c ".." then removelast acc
  else acc ++ [c].

Definition resolve (p : string) : list string :=
  fold_left resolve_step (Py.split_sep p) [].

Fixpoint is_prefix (a b : list string) : bool :=
  match a, b with
  | [], _ => true
  | x :: a', y :: b' => String.eqb x y && is_prefix a' b'
  | _ :: _, [] => false
  end.

(** [p] resolves to [dir] or to a location below it. *)
Definition inside (dir p : string) : bool := is_prefix (resolve dir) (resolve p).

(** A member name that is relative and has no [..] component. *)
Definition safe_name (n : string) : bool :=
  negb (Py.startswith n "/")
  && forallb (fun c => negb (String.eqb c "..")) (Py.split_sep n).

(** ** A small concrete world

    The disk is a table from paths to contents; the decoders, the archive
    reader and the agent run are given by tables. It serves to run the
    handler on concrete sessions. *)
Module Demo.

Fixpoint lookup {A B} (eqb : A -> A -> bool) (k : A) (tbl : list (A * B)) : option B :=
  match tbl with
  | [] => None
  | (k', v) :: rest => if eqb k k' then Some v else lookup eqb k rest
  end.

Definition bytes_eqb (a b : list byte) : bool :=
  String.eqb (string_of_list_byte a) (string_of_list_byte b).

Definition files : Type := list (string * list byte).

Definition extract (path : string) (tar_info : TarInfo) (d : files) : files :=
  (target path tar_info, data tar_info) :: d.

(** The remainder of [p] after [pre], when [p] starts with [pre]. *)
Fixpoint strip (pre p : string) : option string :=
  match pre, p with
  | EmptyString, _ => Some p
  | String a pre', String b p' => if Ascii.eqb a b then strip pre' p' else None
  | String _ _, EmptyString => None
  end.

Definition listdir (dir : string) (d : files) : list string :=
  nodup string_dec
    (flat_map
       (fun '(p, _) =>
          match strip (dir ++ "/")%string p with
          | Some rest => firstn 1 (Py.split_sep rest)
          | None => []
          end)
       d).

Definition read (path : string) (d : files) : result (list byte) :=
  match lookup String.eqb path d with
  | Some content => Ok content
  | None => Raise (OtherError "FileNotFoundError")
  end.

Definition remove (path : string) (d : files) : files :=
  filter (fun '(p, _) => negb (String.eqb p path)) d.

(** A file of the table, or a directory above one. *)
Definition present (path : string) (d : files) : bool :=
  existsb
    (fun '(p, _) => String.eqb p path || Py.startswith p (path ++ "/")%string)
    d.

Definition world
    (metadata_of : list (string * result Metadata))
    (config_of : list (string * result WSConfig))
    (archive_of : list (list byte * result (list tar_step)))
    (run : result CompletedProcess)
    (now : Z) (download : fetch_outcome) : World :=
  {| decode_metadata text :=
       match lookup String.eqb text metadata_of with
       | Some r => r
       | None => Raise JSONDecodeError
       end;
     decode_config text :=
       match lookup String.eqb text config_of with
       | Some r => r
       | None => Raise JSONDecodeError
       end;
     (* a plain rendering of the two fields stands for the JSON text *)
     json_dumps res :=
       ((if model.successful res then "{successful: true, message: "
         else "{successful: false, message: ") ++ model.message res ++ "}")%string;
     tar_open content :=
       match lookup bytes_eqb content archive_of with
       | Some r => r
       | None => Raise ReadError
       end;
     fs := files;
     fs_extract := extract;
     fs_listdir := listdir;
     fs_read := read;
     fs_remove := remove;
     (* the faults of the sessions below leave nothing but directories,
        which the table does not list *)
     fs_partial _ _ _ d := d;
     fs_exists := present;
     link_fault _ _ := None;
     mkdtemp := "/tmp/scratch";
     mkstemp := "/tmp/download";
     wss_agent_path := "/agent/wss-unified-agent.jar";
     wss_agent_name := "wss-unified-agent.jar";
     java_path := "/usr/bin/java";
     subprocess_run _ _ _ := run;
     clock := now;
     fetch := download |}.

Definition config : WSConfig :=
  {| protocol.apiKey := "api";
     protocol.extraWsConfig := [("npm.resolveDependencies", "false")];
     protocol.productToken := "product";
     protocol.projectName := "demo";
     protocol.requesterEmail := "dev@example.org";
     protocol.userKey := "user";
     protocol.wssUrl := "https://wss.example.org/agent" |}.

Definition metadata (length chunkSize : Z) : Metadata :=
  {| protocol.length := length; protocol.chunkSize := chunkSize |}.

Definition bytes (s : string) : list byte := list_byte_of_string s.

Definition file (n content : string) : TarInfo :=
  {| name := n; data := bytes content |}.

Definition completed (rc : Z) (out err : string) : result CompletedProcess :=
  Ok {| returncode := rc; stdout := bytes out; stderr := bytes err |}.

(** A session starts with the client's messages in the inbox, the given
    disk and state of the canonical agent file, and a peer that stays for
    the two answers. *)
Definition start (W : World) (d : fs W) (frames : list frame) (agent : option Z)
  : state W :=
  Build_state W frames d agent 2.

(** The same with a peer that leaves after taking [n] more text messages. *)
Definition leaving {W : World} (n : nat) (s : state W) : state W :=
  set_listening n s.

End Demo.

(** The trace and the result of a handler run. *)
Definition trace_of {W A} (run : list event * result A * state W) : list event :=
  fst (fst run).

Definition result_of {W A} (run : list event * result A * state W) : result A :=
  snd (fst run).

Definition state_of {W A} (run : list event * result A * state W) : state W :=
  snd run.

(** ** Vocabulary of the properties *)

(** The exceptions the inner [except] clause of the control phase names. *)
Definition contract_fault (e : exn) : bool :=
  match e with
  | JSONDecodeError | MissingValueError => true
  | _ => false
  end.

(** The exceptions the [except] clause around the extraction names. *)
Definition archive_fault (e : exn) : bool :=
  match e with
  | ReadError | UnicodeDecodeError | InvalidHeaderError => true
  | _ => false
  end.

(** The outermost [except falcon.WebSocketDisconnected: return]. *)
Definition silence_disconnect (r : result unit) : result unit :=
  match r with
  | Raise WebSocketDisconnected => Ok tt
  | Raise e => Raise e
  | Ok _ => Ok tt
  end.

(** The calls of the control phase when both messages arrive as text. *)
Definition control_trace : list event :=
  [ WsAccept;
    LogInfo "component" "receiving metadata...";
    WsReceiveText;
    LogInfo "component" "receiving whitesource config...";
    WsReceiveText ].

(** The number of bytes written to the staging file by the calls of a
    trace. *)
Fixpoint written_bytes (t : list event) : Z :=
  match t with
  | [] => 0
  | FileWrite chunk :: rest => Z.of_nat (List.length chunk) + written_bytes rest
  | _ :: rest => written_bytes rest
  end.

(** The number of payload messages a trace asks the connection for. *)
Definition payload_requests (t : list event) : nat :=
  List.length
    (filter (fun ev => match ev with WsReceiveData => true | _ => false end) t).

(** The first exception of a stream of [next()] and [extract] calls. *)
Fixpoint stream_fault (f : list tar_step) : option exn :=
  match f with
  | [] => None
  | NextRaises e :: _ => Some e
  | Member _ (Some e) :: _ => Some e
  | Member _ None :: rest => stream_fault rest
  end.


(** A control message on which the decoder raises one of the two
    exceptions the handler names, [JSONDecodeError] (malformed JSON) or
    [MissingValueError] (an object lacking a field): the metadata message,
    or the configuration message after well-formed metadata. *)
Definition rejected_control (W : World) (frames : list frame) : bool :=
  match frames with
  | TextFrame m :: rest =>
      match decode_metadata W m with
      | Raise e => contract_fault e
      | Ok _ =>
          match rest with
          | TextFrame c :: _ =>
              match decode_config W c with
              | Raise e => contract_fault e
              | Ok _ => false
              end
          | _ => false
          end
      end
  | _ => false
  end.

(** The [extract] calls made on a stream, up to its first fault. *)
Fixpoint extract_calls (path : string) (f : list tar_step) : list event :=
  match f with
  | [] => []
  | NextRaises _ :: _ => []
  | Member tar_info fault :: rest =>
      TarExtract tar_info path fault ::
      match fault with
      | Some _ => []
      | None => extract_calls path rest
      end
  end.


(** The exception a failed download leaves [pull_latest_wss_agent] with. *)
Definition pull_failure (o : fetch_outcome) : option exn :=
  match o with
  | Fetched => None
  | TmpFileFailed => Some AttributeError
  | DownloadFailed _ | MoveFailed _ => Some (RuntimeError "error pulling wss agent")
  end.

(** Every call a computation makes, from any state, satisfies [P]. *)
Definition emits_only {W : World} {A : Type} (P : event -> Prop) (m : M W A) : Prop :=
  forall s, Forall P (trace_of (m s)).

(** The reading [f] of the state is the same after [m] as before it, from
    any state. *)
Definition keeps {W : World} {A X : Type} (f : state W -> X) (m : M W A) : Prop :=
  forall s, f (state_of (m s)) = f s.

(** Logging, the agent file, the hard link, the configuration file and the
    subprocess: the calls of the scan step before it answers. *)
Definition housekeeping (ev : event) : Prop :=
  match ev with
  | LogInfo _ _ | LogWarn _ _ | LogError _ _
  | OsLink _ _ | OsUnlink _ | ConfigAppend _ _ | SubprocessRun _ _
  | ThreadStart _ | HttpGet _ | ShutilMove _ => True
  | _ => False
  end.

Definition not_extract (ev : event) : Prop :=
  match ev with
  | TarExtract _ _ _ => False
  | _ => True
  end.

Definition not_send (ev : event) : Prop :=
  match ev with
  | WsSendText _ => False
  | _ => True
  end.

(** The directory a layer archive named [file] is extracted into. *)
Definition layer_dir (tmp_dir file : string) : string :=
  Py.path_join tmp_dir (Py.replace file ".tar" "").

(** [old] occurs in [s]. *)
Fixpoint occurs (old s : string) : bool :=
  String.prefix old s ||
  match s with
  | EmptyString => false
  | String _ s' => occurs old s'
  end.





(** The [ScanResult] the handler builds from the agent's run, when the
    captured output decodes. *)
Definition scan_result (result : CompletedProcess) : model.ScanResult :=
  let out := string_of_list_byte (stdout result) in
  let err := string_of_list_byte (stderr result) in
  {| model.successful := returncode result =? 0;
     model.message := if returncode result =? 0 then out else (err ++ out)%string |}.

(** The two answers, in the order they are sent. *)
Definition answers (W : World) (result : CompletedProcess) : list string :=
  [ Py.str (returncode result); json_dumps W (scan_result result) ].

(** The captured output the handler decodes: the standard output, and the
    standard error as well after a non-zero exit. *)
Definition output_decodes (result : CompletedProcess) : bool :=
  Utf8.valid (stdout result)
  && ((returncode result =? 0) || Utf8.valid (stderr result)).

(** Readings of a trace: the names of the members extracted into [path],
    the warnings logged, the text messages sent, the close codes. *)
Definition extracted_into (path : string) (t : list event) : list string :=
  flat_map
    (fun ev =>
       match ev with
       | TarExtract tar_info p None =>
           if String.eqb p path then [name tar_info] else []
       | _ => []
       end)
    t.

Definition warnings (t : list event) : list string :=
  flat_map (fun ev => match ev with LogWarn _ msg => [msg] | _ => [] end) t.

Definition sent (t : list event) : list string :=
  flat_map (fun ev => match ev with WsSendText payload => [payload] | _ => [] end) t.

Definition closes (t : list event) : list StatusCode :=
  flat_map (fun ev => match ev with WsClose code => [code] | _ => [] end) t.

Definition removed (t : list event) : list string :=
  flat_map (fun ev => match ev with OsRemove path => [path] | _ => [] end) t.

(** ** The claims that fail, as the specification states them *)


(** When the receive loop ends, the staging file holds exactly the
    declared number of bytes. *)
Definition stages_declared_length (W : World) (s : state W) : Prop :=
  forall m c rest metadata ws_config received tar_file,
    inbox s = TextFrame m :: TextFrame c :: rest ->
    decode_metadata W m = Ok metadata ->
    decode_config W c = Ok ws_config ->
    protocol.chunkSize metadata <= protocol.length metadata ->
    result_of (receive_payload W (protocol.projectName ws_config)
                 (protocol.length metadata) (set_inbox rest s))
      = Ok (received, tar_file) ->
    Z.of_nat (List.length tar_file) = protocol.length metadata.


(** Every completed run of the agent is answered with its exit code and
    its result. *)
Definition answers_completed_run (W : World) (s : state W) : Prop :=
  forall m c rest metadata ws_config received tar_file link result,
    let plogger := protocol.projectName ws_config in
    let tmp_dir := mkdtemp W in
    let staging :=
      receive_payload W plogger (protocol.length metadata) (set_inbox rest s) in
    let extraction := extract_archive W plogger tmp_dir tar_file (state_of staging) in
    let agent := get_wss_agent_hardlink W tmp_dir (state_of extraction) in
    let scan := _scan_component W tmp_dir tmp_dir ws_config plogger (state_of agent) in
    inbox s = TextFrame m :: TextFrame c :: rest ->
    decode_metadata W m = Ok metadata ->
    decode_config W c = Ok ws_config ->
    protocol.chunkSize metadata <= protocol.length metadata ->
    result_of staging = Ok (received, tar_file) ->
    result_of extraction = Ok tt ->
    result_of agent = Ok link ->
    result_of scan = Ok result ->
    exists pre payload,
      trace_of (on_websocket W s) =
        pre ++ [ WsSendText (Py.str (returncode result));
                 WsSendText payload;
                 TmpDirCleanup tmp_dir ].

(** ** Concrete sessions *)

Module Scenario.
Import Demo.

(** The client's two control messages, followed by the payload chunks. *)
Definition client (chunks : list string) : list frame :=
  TextFrame "META" :: TextFrame "CONFIG" :: map (fun c => BinaryFrame (bytes c)) chunks.

Definition fresh_agent : option Z := Some 900.

(** A well-formed upload: one layer and a loose file; the agent exits 0. *)
Definition W_ok : World :=
  world [("META", Ok (metadata 8 4))] [("CONFIG", Ok config)]
        [(bytes "OUTERTAR",
          Ok [Member (file "layerA.tar" "INNER") None;
              Member (file "manifest.json" "{}") None]);
         (bytes "INNER", Ok [Member (file "app/manifest.json" "{}") None])]
        (completed 0 "scan ok" "") 1000 Fetched.

Definition s_ok : state W_ok :=
  start W_ok [] (client ["OUTE"; "RTAR"]) fresh_agent.

(** The same upload; the agent exits 2 and writes to both streams. *)
Definition W_failed_scan : World :=
  world [("META", Ok (metadata 8 4))] [("CONFIG", Ok config)]
        [(bytes "OUTERTAR",
          Ok [Member (file "layerA.tar" "INNER") None;
              Member (file "manifest.json" "{}") None]);
         (bytes "INNER", Ok [Member (file "app/manifest.json" "{}") None])]
        (completed 2 "policy violation" "error: ") 1000 Fetched.

Definition s_failed_scan : state W_failed_scan :=
  start W_failed_scan [] (client ["OUTE"; "RTAR"]) fresh_agent.

(** The same upload; the agent exits 0 and its output is not UTF-8. *)
Definition W_binary_output : World :=
  world [("META", Ok (metadata 8 4))] [("CONFIG", Ok config)]
        [(bytes "OUTERTAR",
          Ok [Member (file "layerA.tar" "INNER") None;
              Member (file "manifest.json" "{}") None]);
         (bytes "INNER", Ok [Member (file "app/manifest.json" "{}") None])]
        (Ok {| returncode := 0; stdout := [xff]; stderr := [] |}) 1000 Fetched.

Definition s_binary_output : state W_binary_output :=
  start W_binary_output [] (client ["OUTE"; "RTAR"]) fresh_agent.

(** Declared length 3 and chunk size 2; the client sends two chunks of two
    bytes. No archive is readable in this world. *)
Definition W_overshoot : World :=
  world [("META", Ok (metadata 3 2))] [("CONFIG", Ok config)]
        [] (completed 0 "" "") 1000 Fetched.

Definition s_overshoot : state W_overshoot :=
  start W_overshoot [] (client ["ab"; "cd"]) fresh_agent.

(** Declared length 100 and chunk size 200. *)
Definition W_big_chunk : World :=
  world [("META", Ok (metadata 100 200))] [("CONFIG", Ok config)]
        [] (completed 0 "" "") 1000 Fetched.

Definition s_big_chunk : state W_big_chunk :=
  start W_big_chunk [] (client ["payload"]) fresh_agent.

(** Metadata lacking a field. *)
Definition W_missing_field : World :=
  world [("META", Raise MissingValueError)] [("CONFIG", Ok config)]
        [] (completed 0 "" "") 1000 Fetched.

Definition s_missing_field : state W_missing_field :=
  start W_missing_field [] (client ["payload"]) fresh_agent.

(** Metadata that is the JSON value [null], on which the decoder raises
    [TypeError], and metadata that is the empty object, which lacks both
    fields. *)
Definition W_null : World :=
  world [("null", Raise (OtherError "TypeError")); ("{}", Raise MissingValueError)]
        [("CONFIG", Ok config)]
        [] (completed 0 "" "") 1000 Fetched.

Definition s_null : state W_null :=
  start W_null [] [TextFrame "null"; TextFrame "CONFIG"] fresh_agent.

Definition s_empty_object : state W_null :=
  start W_null [] [TextFrame "{}"; TextFrame "CONFIG"] fresh_agent.

(** Declared length 0 and chunk size 0. *)
Definition W_empty : World :=
  world [("META", Ok (metadata 0 0))] [("CONFIG", Ok config)]
        [] (completed 0 "" "") 1000 Fetched.

Definition s_empty : state W_empty :=
  start W_empty [] (client ["unread"]) fresh_agent.



(** The outer archive holds a layer named [a.tar.b.tar]. *)
Definition W_interior : World :=
  world [("META", Ok (metadata 5 5))] [("CONFIG", Ok config)]
        [(bytes "OUTER", Ok [Member (file "a.tar.b.tar" "INNER") None]);
         (bytes "INNER", Ok [Member (file "app/manifest.json" "{}") None])]
        (completed 0 "scan ok" "") 1000 Fetched.

Definition s_interior : state W_interior :=
  start W_interior [] (client ["OUTER"]) fresh_agent.

(** The layer holds three members; extracting the second, a link whose
    target is not in the archive, raises [KeyError]. *)
Definition W_link : World :=
  world [("META", Ok (metadata 5 5))] [("CONFIG", Ok config)]
        [(bytes "OUTER", Ok [Member (file "layerA.tar" "INNER") None]);
         (bytes "INNER",
          Ok [Member (file "bin/tool" "ELF") None;
              Member (file "bin/alias" "") (Some KeyError);
              Member (file "app/manifest.json" "{}") None])]
        (completed 0 "scan ok" "") 1000 Fetched.

Definition s_link : state W_link :=
  start W_link [] (client ["OUTER"]) fresh_agent.

(** The agent cache: no file and a failing download; no file and a working
    download; a file two days old; a file one hour old. Times are in
    microseconds. *)
Definition hour : Z := 3600 * 1000000.


Definition W_online : World :=
  world [] [] [] (completed 0 "" "") (100 * hour) Fetched.


Definition online (agent : option Z) : state W_online :=
  start W_online [] [] agent.

End Scenario.

(** ** More readings of a trace *)

(** The creation and the cleanup of scratch directories, in order. *)
Definition scratch_calls (t : list event) : list event :=
  filter
    (fun ev =>
       match ev with
       | TmpDirCreate _ | TmpDirCleanup _ => true
       | _ => false
       end)
    t.

Definition not_scratch (ev : event) : Prop :=
  match ev with
  | TmpDirCreate _ | TmpDirCleanup _ => False
  | _ => True
  end.

(** Neither a close nor an answer. *)
Definition quiet (ev : event) : Prop :=
  match ev with
  | WsClose _ | WsSendText _ => False
  | _ => True
  end.

(** Neither a receive on the connection nor a write to the staging file. *)
Definition not_staging (ev : event) : Prop :=
  match ev with
  | WsReceiveText | WsReceiveData | FileWrite _ => False
  | _ => True
  end.

Definition not_request (ev : event) : Prop :=
  match ev with
  | WsReceiveData => False
  | _ => True
  end.

Definition not_link (ev : event) : Prop :=
  match ev with
  | OsLink _ _ | OsUnlink _ => False
  | _ => True
  end.

Definition not_remove (ev : event) : Prop :=
  match ev with
  | OsRemove _ => False
  | _ => True
  end.

(** The entries of a directory listing the handler treats as layers. *)
Definition layer_files (listing : list string) : list string :=
  filter (fun file => Py.endswith file ".tar") listing.



(** ** util.py: [sizeof_fmt]

    [num] is carried as the exact value of the Python number. The first
    test compares the argument itself; from the first division on the code
    holds a float. Dividing a float by [1024.0] is exact, so the value
    carried is the float's whenever the conversion of the argument to float
    is exact, which holds for every integer of magnitude at most 2^53. The
    two conversions [%3.1f] and [%.1f] of the runtime are parameters. *)

Section Sizeof.

Variable format_3_1f format_1f : Q -> string.

Definition Qltb (a b : Q) : bool := negb (Qle_bool b a).

Fixpoint sizeof_units (units : list string) (num : Q) (suffix : string) : string :=
  match units with
  | [] => (format_1f num ++ "Yi" ++ suffix)%string
  | unit :: rest =>
      if Qltb (Qabs num) (1024 # 1)
      then (format_3_1f num ++ unit ++ suffix)%string
      else sizeof_units rest (num / (1024 # 1))%Q suffix
  end.

Definition units : list string :=
  [""; "Ki"; "Mi"; "Gi"; "Ti"; "Pi"; "Ei"; "Zi"].

Definition sizeof_fmt (num : Z) (suffix : string) : string :=
  sizeof_units units (inject_Z num) suffix.

End Sizeof.

(** [num] after [k] divisions by 1024. *)
Fixpoint scaled (num : Q) (k : nat) : Q :=
  match k with
  | O => num
  | S k' => scaled (num / (1024 # 1))%Q k'
  end.

(** ** More concrete sessions *)

Module Scenario2.
Import Demo.





(** Two layers and a loose file, well formed. *)
Definition W_two_layers : World :=
  world [("META", Ok (metadata 5 5))] [("CONFIG", Ok config)]
        [(bytes "OUTER",
          Ok [Member (file "layerB.tar" "INNER2") None;
              Member (file "README" "hello") None;
              Member (file "layerA.tar" "INNER") None]);
         (bytes "INNER", Ok [Member (file "app/manifest.json" "{}") None]);
         (bytes "INNER2", Ok [Member (file "bin/tool" "ELF") None])]
        (completed 0 "scan ok" "") 1000 Fetched.

Definition s_two_layers : state W_two_layers :=
  start W_two_layers [] (Scenario.client ["OUTER"]) Scenario.fresh_agent.

(** The well-formed upload; the Java runtime cannot be started. *)
Definition W_no_java : World :=
  world [("META", Ok (metadata 8 4))] [("CONFIG", Ok config)]
        [(bytes "OUTERTAR",
          Ok [Member (file "layerA.tar" "INNER") None;
              Member (file "manifest.json" "{}") None]);
         (bytes "INNER", Ok [Member (file "app/manifest.json" "{}") None])]
        (Raise (OtherError "FileNotFoundError")) 1000 Fetched.

Definition s_no_java : state W_no_java :=
  start W_no_java [] (Scenario.client ["OUTE"; "RTAR"]) Scenario.fresh_agent.

(** The upload holds, at its top level, a file named like the agent. *)
Definition W_collision : World :=
  world [("META", Ok (metadata 5 5))] [("CONFIG", Ok config)]
        [(bytes "OUTER",
          Ok [Member (file "wss-unified-agent.jar" "not the agent") None;
              Member (file "manifest.json" "{}") None])]
        (completed 0 "scan ok" "") 1000 Fetched.

Definition s_collision : state W_collision :=
  start W_collision [] (Scenario.client ["OUTER"]) Scenario.fresh_agent.

(** No agent file; the download succeeds and the move into place fails. *)
Definition W_move_failed : World :=
  world [] [] [] (completed 0 "" "") (100 * Scenario.hour)
        (MoveFailed (OtherError "PermissionError")).

End Scenario2.


(** The hard links made, as source and destination, and the paths
    unlinked. *)
Definition links (t : list event) : list (string * string) :=
  flat_map (fun ev => match ev with OsLink src dst => [(src, dst)] | _ => [] end) t.

Definition unlinks (t : list event) : list string :=
  flat_map (fun ev => match ev with OsUnlink path => [path] | _ => [] end) t.

(** The downloads started and the calls of [shutil.move], by destination. *)
Definition downloads (t : list event) : list string :=
  flat_map (fun ev => match ev with HttpGet url => [url] | _ => [] end) t.

Definition moves (t : list event) : list string :=
  flat_map (fun ev => match ev with ShutilMove dst => [dst] | _ => [] end) t.

Definition threads (t : list event) : list task :=
  flat_map (fun ev => match ev with ThreadStart k => [k] | _ => [] end) t.

(** The error messages logged. *)
Definition errors (t : list event) : list string :=
  flat_map (fun ev => match ev with LogError _ msg => [msg] | _ => [] end) t.

(** * Examples: the primitives on concrete inputs *)

Example endswith_tar : Py.endswith "layerA.tar" ".tar" = true.
Proof. reflexivity. Qed.

Example endswith_not_tar : Py.endswith "layerA.tar.gz" ".tar" = false.
Proof. reflexivity. Qed.

Example replace_single : Py.replace "layerA.tar" ".tar" "" = "layerA".
Proof. reflexivity. Qed.

Example replace_all : Py.replace "a.tar.b.tar" ".tar" "" = "a.b".
Proof. reflexivity. Qed.

Example replace_overlap : Py.replace "aaa" "aa" "b" = "ba".
Proof. reflexivity. Qed.

Example join_rel : Py.path_join "/tmp/x" "layerA" = "/tmp/x/layerA".
Proof. reflexivity. Qed.

Example join_abs : Py.path_join "/tmp/x" "/etc/passwd" = "/etc/passwd".
Proof. reflexivity. Qed.

Example join_empty : Py.path_join "/tmp/x" "" = "/tmp/x/".
Proof. reflexivity. Qed.

Example split_example : Py.split_sep "/tmp/x/../y" = [""; "tmp"; "x"; ".."; "y"]%string.
Proof. reflexivity. Qed.

Example str_examples : (Py.str 0, Py.str 7, Py.str 120, Py.str (-2)) = ("0", "7", "120", "-2").
Proof. reflexivity. Qed.

Example utf8_ascii : Utf8.valid (list_byte_of_string "scan ok") = true.
Proof. reflexivity. Qed.

Example utf8_two_bytes : Utf8.valid [xc3; xa9] = true.
Proof. reflexivity. Qed.

Example utf8_lone_ff : Utf8.valid [xff] = false.
Proof. reflexivity. Qed.

Example utf8_overlong : Utf8.valid [xc0; x80] = false.
Proof. reflexivity. Qed.

Example utf8_surrogate : Utf8.valid [xed; xa0; x80] = false.
Proof. reflexivity. Qed.

Example utf8_truncated : Utf8.valid [xe2; x82] = false.
Proof. reflexivity. Qed.

Example resolve_dotdot : resolve "/tmp/s/../x" = ["tmp"; "x"]%string.
Proof. reflexivity. Qed.

Example inside_yes : inside "/tmp/s" "/tmp/s/layerA/app/manifest.json" = true.
Proof. reflexivity. Qed.

Example inside_no : inside "/tmp/s" "/tmp/s/../x" = false.
Proof. reflexivity. Qed.

(** * Reasoning about runs

    The trace, result and final state of a computation built with the
    combinators, in terms of those of its parts. *)

Section Runs.

Context {W : World}.

Lemma bind_trace {A B} (m : M W A) (k : A -> M W B) (s : state W) :
  trace_of (bind m k s) =
  trace_of (m s) ++
  match result_of (m s) with
  | Ok a => trace_of (k a (state_of (m s)))
  | Raise _ => []
  end.
Proof.
  unfold bind, trace_of, result_of, state_of.
  destruct (m s) as [[t1 [a | e]] s1]; simpl.
  - destruct (k a s1) as [[t2 r2] s2]; reflexivity.
  - symmetry; apply app_nil_r.
Qed.

Lemma bind_result {A B} (m : M W A) (k : A -> M W B) (s : state W) :
  result_of (bind m k s) =
  match result_of (m s) with
  | Ok a => result_of (k a (state_of (m s)))
  | Raise e => Raise e
  end.
Proof.
  unfold bind, trace_of, result_of, state_of.
  destruct (m s) as [[t1 [a | e]] s1]; simpl; [|reflexivity].
  destruct (k a s1) as [[t2 r2] s2]; reflexivity.
Qed.

Lemma bind_state {A B} (m : M W A) (k : A -> M W B) (s : state W) :
  state_of (bind m k s) =
  match result_of (m s) with
  | Ok a => state_of (k a (state_of (m s)))
  | Raise _ => state_of (m s)
  end.
Proof.
  unfold bind, trace_of, result_of, state_of.
  destruct (m s) as [[t1 [a | e]] s1]; simpl; [|reflexivity].
  destruct (k a s1) as [[t2 r2] s2]; reflexivity.
Qed.

Lemma catch_trace {A} (m : M W A) s : trace_of (catch m s) = trace_of (m s).
Proof. unfold catch, trace_of. destruct (m s) as [[t r] s1]; reflexivity. Qed.

Lemma catch_result {A} (m : M W A) s : result_of (catch m s) = Ok (result_of (m s)).
Proof. unfold catch, result_of. destruct (m s) as [[t r] s1]; reflexivity. Qed.

Lemma catch_state {A} (m : M W A) s : state_of (catch m s) = state_of (m s).
Proof. unfold catch, state_of. destruct (m s) as [[t r] s1]; reflexivity. Qed.

Lemma finally_trace {A} (m : M W A) (c : M W unit) s :
  trace_of (finally m c s) = trace_of (m s) ++ trace_of (c (state_of (m s))).
Proof.
  unfold finally, trace_of, state_of. destruct (m s) as [[t r] s1]; simpl.
  destruct (c s1) as [[t2 [u | e]] s2]; reflexivity.
Qed.

Lemma finally_result {A} (m : M W A) (c : M W unit) s :
  result_of (finally m c s) =
  match result_of (c (state_of (m s))) with
  | Ok _ => result_of (m s)
  | Raise e => Raise e
  end.
Proof.
  unfold finally, result_of, state_of. destruct (m s) as [[t r] s1]; simpl.
  destruct (c s1) as [[t2 [u | e]] s2]; reflexivity.
Qed.

Lemma finally_state {A} (m : M W A) (c : M W unit) s :
  state_of (finally m c s) = state_of (c (state_of (m s))).
Proof.
  unfold finally, state_of. destruct (m s) as [[t r] s1]; simpl.
  destruct (c s1) as [[t2 [u | e]] s2]; reflexivity.
Qed.

Lemma run_eta {A} (x : list event * result A * state W) :
  x = (trace_of x, result_of x, state_of x).
Proof. destruct x as [[t r] s]; reflexivity. Qed.

End Runs.

Create Rewrite HintDb run.
#[export] Hint Rewrite
  @bind_trace @bind_result @bind_state
  @catch_trace @catch_result @catch_state
  @finally_trace @finally_result @finally_state : run.

(** Unfolds the projections of runs of the primitive actions. *)
Ltac prim :=
  cbn [trace_of result_of state_of fst snd
       ret raise emit get modify lift log_info ws_accept ws_close ws_send_text].

Ltac run := repeat (autorewrite with run; prim).

(** * The handler, layer by layer *)

Lemma on_websocket_run (W : World) (s : state W) :
  on_websocket W s =
  let rc := receive_control W s in
  let start := [WsAccept; LogInfo "component" "receiving metadata..."] in
  match result_of rc with
  | Ok (metadata, ws_config) =>
      let body := session W metadata ws_config (state_of rc) in
      (start ++ trace_of rc ++ trace_of body,
       silence_disconnect (result_of body), state_of body)
  | Raise e =>
      if contract_fault e
      then (start ++ trace_of rc ++ [WsClose protocol.CONTRACT_VIOLATION],
            Ok tt, state_of rc)
      else (start ++ trace_of rc, silence_disconnect (Raise e), state_of rc)
  end.
Proof.
  rewrite (run_eta (on_websocket W s)). unfold on_websocket. run.
  destruct (result_of (receive_control W s)) as [[metadata ws_config] | e]; run.
  - destruct (result_of (session W metadata ws_config _)) as [[] | []];
      run; rewrite ?app_nil_r; reflexivity.
  - destruct e; run; rewrite ?app_nil_r; reflexivity.
Qed.

Lemma session_run (W : World) (metadata : Metadata) (ws_config : WSConfig)
    (s : state W) :
  session W metadata ws_config s =
  if protocol.chunkSize metadata >? protocol.length metadata
  then ([WsClose protocol.CHUNK_SIZE_TOO_BIG], Ok tt, s)
  else
    let body :=
      ingest_and_scan W (protocol.projectName ws_config) (mkdtemp W)
        metadata ws_config s in
    (TmpDirCreate (mkdtemp W) :: trace_of body ++ [TmpDirCleanup (mkdtemp W)],
     result_of body, state_of body).
Proof.
  rewrite (run_eta (session W metadata ws_config s)). unfold session.
  destruct (protocol.chunkSize metadata >? protocol.length metadata); run;
    reflexivity.
Qed.

Lemma ingest_and_scan_run (W : World) (plogger tmp_dir : string)
    (metadata : Metadata) (ws_config : WSConfig) (s : state W) :
  ingest_and_scan W plogger tmp_dir metadata ws_config s =
  let rp := receive_payload W plogger (protocol.length metadata) s in
  let start := LogInfo plogger "transfer start" :: trace_of rp in
  match result_of rp with
  | Raise e => (start, Raise e, state_of rp)
  | Ok (received, tar_file) =>
      let ex := extract_archive W plogger tmp_dir tar_file (state_of rp) in
      let staged :=
        start
        ++ [LogProgress plogger received (protocol.length metadata);
            LogInfo plogger "transfer done"]
        ++ trace_of ex in
      match result_of ex with
      | Ok _ =>
          let sc := scan_and_respond W plogger tmp_dir ws_config (state_of ex) in
          (staged ++ trace_of sc, result_of sc, state_of sc)
      | Raise e =>
          if archive_fault e
          then (staged ++ [WsClose protocol.BINARY_CORRUPTED], Ok tt, state_of ex)
          else (staged, Raise e, state_of ex)
      end
  end.
Proof.
  rewrite (run_eta (ingest_and_scan W plogger tmp_dir metadata ws_config s)).
  unfold ingest_and_scan. run.
  destruct (result_of (receive_payload W plogger _ s)) as [[received tar_file] | e];
    run; [|rewrite ?app_nil_r; reflexivity].
  destruct (result_of (extract_archive W plogger tmp_dir tar_file _)) as [[] | e]; run.
  - rewrite <- !app_assoc. reflexivity.
  - destruct e; run; rewrite <- ?app_assoc, ?app_nil_r; reflexivity.
Qed.

(** * The control phase *)

Lemma ws_receive_text_run (W : World) (s : state W) text rest :
  inbox s = TextFrame text :: rest ->
  ws_receive_text W s = ([WsReceiveText], Ok text, set_inbox rest s).
Proof. intros H. unfold ws_receive_text. rewrite H. reflexivity. Qed.

Lemma receive_control_ok (W : World) (s : state W) (m c : string)
    (rest : list frame) (metadata : Metadata) (ws_config : WSConfig) :
  inbox s = TextFrame m :: TextFrame c :: rest ->
  decode_metadata W m = Ok metadata ->
  decode_config W c = Ok ws_config ->
  receive_control W s =
  ([WsReceiveText; LogInfo "component" "receiving whitesource config..."; WsReceiveText],
   Ok (metadata, ws_config), set_inbox rest s).
Proof.
  intros Hin Hm Hc. unfold receive_control, bind.
  rewrite (ws_receive_text_run W s m _ Hin).
  unfold lift. rewrite Hm. unfold log_info, emit.
  rewrite (ws_receive_text_run W (set_inbox (TextFrame c :: rest) s) c rest eq_refl).
  rewrite Hc. reflexivity.
Qed.

Lemma receive_control_bad_metadata (W : World) (s : state W) (m : string)
    (rest : list frame) (e : exn) :
  inbox s = TextFrame m :: rest ->
  decode_metadata W m = Raise e ->
  receive_control W s = ([WsReceiveText], Raise e, set_inbox rest s).
Proof.
  intros Hin Hm. unfold receive_control, bind.
  rewrite (ws_receive_text_run W s m _ Hin).
  unfold lift. rewrite Hm. reflexivity.
Qed.

Lemma receive_control_bad_config (W : World) (s : state W) (m c : string)
    (rest : list frame) (metadata : Metadata) (e : exn) :
  inbox s = TextFrame m :: TextFrame c :: rest ->
  decode_metadata W m = Ok metadata ->
  decode_config W c = Raise e ->
  receive_control W s =
  ([WsReceiveText; LogInfo "component" "receiving whitesource config..."; WsReceiveText],
   Raise e, set_inbox rest s).
Proof.
  intros Hin Hm Hc. unfold receive_control, bind.
  rewrite (ws_receive_text_run W s m _ Hin).
  unfold lift. rewrite Hm. unfold log_info, emit.
  rewrite (ws_receive_text_run W (set_inbox (TextFrame c :: rest) s) c rest eq_refl).
  rewrite Hc. reflexivity.
Qed.

(** The receive loop asks for a chunk at once when a positive length is
    declared. *)
Lemma receive_payload_first_call (W : World) plogger length (s : state W) :
  0 < length ->
  exists t, trace_of (receive_payload W plogger length s) = WsReceiveData :: t.
Proof.
  intros Hpos. unfold receive_payload.
  destruct (inbox s) as [| [text | chunk] rest]; cbn [receive_chunks];
    destruct (Z.ltb_spec 0 length); try lia.
  - eexists; reflexivity.
  - eexists; reflexivity.
  - destruct (receive_chunks _ _ _ _ rest) as [[t r] remaining].
    eexists; reflexivity.
Qed.

Lemma ingest_and_scan_first_calls (W : World) plogger tmp_dir metadata ws_config
    (s : state W) :
  exists t,
    trace_of (ingest_and_scan W plogger tmp_dir metadata ws_config s) =
      LogInfo plogger "transfer start" :: t
    /\ (0 < protocol.length metadata -> exists t', t = WsReceiveData :: t').
Proof.
  rewrite ingest_and_scan_run. cbv zeta.
  destruct (result_of (receive_payload W plogger _ s)) as [[received tar_file] | e];
    [ destruct (result_of (extract_archive W plogger tmp_dir tar_file _)) as [[] | e];
      [| destruct (archive_fault e)] |];
    cbn [trace_of fst app]; (eexists; split; [reflexivity|]); intros Hpos;
    destruct (receive_payload_first_call W plogger _ s Hpos) as [t' Ht'];
    rewrite Ht'; cbn [app]; eexists; reflexivity.
Qed.

(** C5. When the declared chunk size exceeds the declared length the
    handler closes with CHUNK_SIZE_TOO_BIG right after the two control
    messages, having asked for no payload message; otherwise (equality
    included) it goes on to the receiving phase: it creates the scratch
    directory, logs the start of the transfer and, for a positive length,
    asks for the first chunk. *)
Theorem chunk_size_check (W : World) (s : state W) (m c : string)
    (rest : list frame) (metadata : Metadata) (ws_config : WSConfig) :
  inbox s = TextFrame m :: TextFrame c :: rest ->
  decode_metadata W m = Ok metadata ->
  decode_config W c = Ok ws_config ->
  let run := on_websocket W s in
  (protocol.chunkSize metadata > protocol.length metadata ->
     trace_of run = control_trace ++ [WsClose protocol.CHUNK_SIZE_TOO_BIG]
     /\ payload_requests (trace_of run) = 0%nat
     /\ result_of run = Ok tt
     /\ inbox (state_of run) = rest)
  /\ (protocol.chunkSize metadata <= protocol.length metadata ->
     exists t,
       trace_of run =
         control_trace
         ++ TmpDirCreate (mkdtemp W)
            :: LogInfo (protocol.projectName ws_config) "transfer start" :: t
       /\ (0 < protocol.length metadata -> exists t', t = WsReceiveData :: t')).
Proof.
  intros Hin Hm Hc run. subst run.
  rewrite on_websocket_run.
  rewrite (receive_control_ok W s m c rest metadata ws_config Hin Hm Hc).
  cbv zeta. cbn [trace_of result_of state_of fst snd].
  rewrite session_run.
  split; intros Hcmp.
  - destruct (Z.gtb_spec (protocol.chunkSize metadata) (protocol.length metadata));
      [|lia].
    cbn. auto.
  - destruct (Z.gtb_spec (protocol.chunkSize metadata) (protocol.length metadata));
      [lia|].
    cbv zeta. cbn [trace_of result_of state_of fst snd].
    destruct (ingest_and_scan_first_calls W (protocol.projectName ws_config)
                (mkdtemp W) metadata ws_config (set_inbox rest s))
      as [t [Ht Hfirst]].
    rewrite Ht. eexists. split; [reflexivity|].
    intros Hpos. destruct (Hfirst Hpos) as [t' ->]. eexists. reflexivity.
Qed.

(** A control message on which the decoder raises [JSONDecodeError] or
    [MissingValueError] makes the handler close with CONTRACT_VIOLATION:
    it has asked for no payload message, the close is its last call, and
    it returns. *)
Theorem contract_violation (W : World) (s : state W) :
  rejected_control W (inbox s) = true ->
  let run := on_websocket W s in
  (trace_of run = firstn 3 control_trace ++ [WsClose protocol.CONTRACT_VIOLATION]
   \/ trace_of run = control_trace ++ [WsClose protocol.CONTRACT_VIOLATION])
  /\ payload_requests (trace_of run) = 0%nat
  /\ result_of run = Ok tt.
Proof.
  intros Hrej run. subst run. unfold rejected_control in Hrej.
  destruct (inbox s) as [| [m | ?] rest] eqn:Hin; try discriminate.
  rewrite on_websocket_run.
  destruct (decode_metadata W m) as [metadata | e] eqn:Hm.
  - destruct rest as [| [c | ?] rest]; try discriminate.
    destruct (decode_config W c) as [ws_config | e] eqn:Hc; try discriminate.
    rewrite (receive_control_bad_config W s m c rest metadata e Hin Hm Hc).
    cbv zeta. cbn [trace_of result_of state_of fst snd]. rewrite Hrej.
    cbn. auto.
  - rewrite (receive_control_bad_metadata W s m rest e Hin Hm).
    cbv zeta. cbn [trace_of result_of state_of fst snd]. rewrite Hrej.
    cbn. auto.
Qed.

(** * The receive loop *)


Lemma payload_requests_app (t1 t2 : list event) :
  payload_requests (t1 ++ t2) = (payload_requests t1 + payload_requests t2)%nat.
Proof. unfold payload_requests. rewrite filter_app, length_app. reflexivity. Qed.

(** What a normal end of the loop says about the messages consumed. *)
Lemma receive_chunks_ok (plogger : string) (len : Z) (frames : list frame) :
  forall received tar_file t r w remaining,
    receive_chunks plogger len received tar_file frames = (t, Ok (r, w), remaining) ->
    exists chunks,
      frames = map BinaryFrame chunks ++ remaining
      /\ w = tar_file ++ List.concat chunks
      /\ r = received + Z.of_nat (List.length (List.concat chunks))
      /\ len <= r
      /\ (forall init final, chunks = init ++ [final] ->
            received + Z.of_nat (List.length (List.concat init)) < len)
      /\ written_bytes t = Z.of_nat (List.length (List.concat chunks))
      /\ payload_requests t = List.length chunks
      /\ Forall (fun ev => forall code, ev <> WsClose code) t.
Proof.
  induction frames as [| fr rest IH]; intros received tar_file t r w remaining Hrun.
  - cbn [receive_chunks] in Hrun.
    destruct (Z.ltb_spec received len); inversion Hrun; subst.
    exists []. cbn. rewrite app_nil_r.
    repeat split; try lia; auto.
    intros init final Habs. destruct init; discriminate.
  - cbn [receive_chunks] in Hrun.
    destruct (Z.ltb_spec received len) as [Hlt | Hge].
    + destruct fr as [text | chunk]; [inversion Hrun|].
      destruct (receive_chunks plogger len _ _ rest) as [[t' r'] rem'] eqn:Hrec.
      inversion Hrun; subst. clear Hrun.
      destruct (IH _ _ _ _ _ _ Hrec)
        as (chunks & Hfr & Hw & Hr & Hlen & Hlast & Hwr & Hreq & Hnc).
      exists (chunk :: chunks). cbn [map List.concat app].
      rewrite !length_app, Nat2Z.inj_add.
      repeat split.
      * rewrite Hfr. reflexivity.
      * rewrite Hw, <- app_assoc. reflexivity.
      * lia.
      * lia.
      * intros init final Heq. destruct init as [| c0 init].
        -- cbn. lia.
        -- cbn [app] in Heq. inversion Heq; subst.
           cbn [List.concat]. rewrite length_app, Nat2Z.inj_add.
           specialize (Hlast init final eq_refl). lia.
      * cbn [written_bytes]. lia.
      * cbn. rewrite <- Hreq. reflexivity.
      * repeat constructor; try discriminate. exact Hnc.
    + inversion Hrun; subst. exists []. cbn. rewrite app_nil_r.
      repeat split; try lia; auto.
      intros init final Habs. destruct init; discriminate.
Qed.

(** With nothing to receive the loop does nothing. *)
Lemma receive_payload_nothing (W : World) plogger len (s : state W) :
  len <= 0 ->
  receive_payload W plogger len s = ([], Ok (0, []), set_inbox (inbox s) s).
Proof.
  intros Hle. unfold receive_payload.
  destruct (inbox s) as [| fr rest]; cbn [receive_chunks];
    destruct (Z.ltb_spec 0 len); try lia; reflexivity.
Qed.

(** C2, amended. When the receive loop ends normally the staging file
    holds every chunk it received, each in full and in order: its size is
    the running total [received], the sum of the chunk sizes; that size is
    at least the declared length, and the chunks before the final one stay
    below the declared length. So the size equals the declared length when
    the chunk sizes add up to it, and exceeds it by the overshoot of the
    final chunk otherwise. *)
Theorem staged_bytes (W : World) (plogger : string) (metadata : Metadata)
    (s : state W) (received : Z) (tar_file : list byte) :
  let run := receive_payload W plogger (protocol.length metadata) s in
  result_of run = Ok (received, tar_file) ->
  exists chunks,
    inbox s = map BinaryFrame chunks ++ inbox (state_of run)
    /\ tar_file = List.concat chunks
    /\ written_bytes (trace_of run) = Z.of_nat (List.length tar_file)
    /\ received = Z.of_nat (List.length tar_file)
    /\ protocol.length metadata <= Z.of_nat (List.length tar_file)
    /\ (forall init final, chunks = init ++ [final] ->
          Z.of_nat (List.length (List.concat init)) < protocol.length metadata).
Proof.
  intros run Hok. subst run. unfold receive_payload in *.
  destruct (receive_chunks plogger (protocol.length metadata) 0 [] (inbox s))
    as [[t r] remaining] eqn:Hrun.
  cbn [result_of trace_of state_of fst snd] in *. subst r.
  destruct (receive_chunks_ok _ _ _ _ _ _ _ _ _ Hrun)
    as (chunks & Hfr & Hw & Hr & Hlen & Hlast & Hwr & _).
  cbn [app] in Hw. subst tar_file.
  exists chunks. cbn [inbox set_inbox].
  repeat split; auto; lia.
Qed.

(** * Extraction *)

Lemma extract_members_trace (W : World) (path : string) (f : list tar_step) :
  forall s : state W, trace_of (extract_members W path f s) = extract_calls path f.
Proof.
  induction f as [| [tar_info [e |] | e] rest IH]; intros s;
    cbn [extract_members extract_calls]; run; try reflexivity.
  rewrite IH. reflexivity.
Qed.

Lemma extract_members_result (W : World) (path : string) (f : list tar_step) :
  forall s : state W,
    result_of (extract_members W path f s) =
    match stream_fault f with
    | Some e => Raise e
    | None => Ok tt
    end.
Proof.
  induction f as [| [tar_info [e |] | e] rest IH]; intros s;
    cbn [extract_members stream_fault]; run; try reflexivity.
  apply IH.
Qed.





(** C10. A session that declares length 0 and chunk size 0 asks for no
    payload message and, the archive reader rejecting the empty staging
    file as it rejects any unreadable archive, closes with
    BINARY_CORRUPTED. *)
Theorem empty_transfer (W : World) (s : state W) (m c : string)
    (rest : list frame) (metadata : Metadata) (ws_config : WSConfig) (e : exn) :
  inbox s = TextFrame m :: TextFrame c :: rest ->
  decode_metadata W m = Ok metadata ->
  decode_config W c = Ok ws_config ->
  protocol.length metadata = 0 ->
  protocol.chunkSize metadata = 0 ->
  tar_open W [] = Raise e ->
  archive_fault e = true ->
  let run := on_websocket W s in
  let plogger := protocol.projectName ws_config in
  trace_of run =
    control_trace
    ++ [ TmpDirCreate (mkdtemp W);
         LogInfo plogger "transfer start";
         LogProgress plogger 0 0;
         LogInfo plogger "transfer done";
         WsClose protocol.BINARY_CORRUPTED;
         TmpDirCleanup (mkdtemp W) ]
  /\ payload_requests (trace_of run) = 0%nat
  /\ result_of run = Ok tt
  /\ inbox (state_of run) = rest.
Proof.
  intros Hin Hm Hc Hlen Hchunk Hopen Hfault run plogger. subst run plogger.
  rewrite on_websocket_run.
  rewrite (receive_control_ok W s m c rest metadata ws_config Hin Hm Hc).
  cbv zeta. cbn [trace_of result_of state_of fst snd].
  rewrite session_run, Hlen, Hchunk. cbn [Z.gtb Z.compare]. cbv zeta.
  rewrite ingest_and_scan_run, Hlen. cbv zeta.
  rewrite receive_payload_nothing by lia.
  cbn [trace_of result_of state_of fst snd].
  unfold extract_archive. run. rewrite Hopen. prim. rewrite Hfault.
  cbn. auto.
Qed.



(** * The agent cache *)

Lemma moved_to_canonical (W : World) (s : state W) :
  moved_to W (wss_agent_path W) s = set_agent_mtime (Some (clock W)) s.
Proof. unfold moved_to. rewrite String.eqb_refl. reflexivity. Qed.

Lemma pull_latest_wss_agent_run (W : World) (path : string) (s : state W) :
  pull_latest_wss_agent W path s =
  match fetch W with
  | Fetched =>
      ([ HttpGet ws_agent_url;
         LogInfo "util" "agent downloaded. Moving it to tmp dir...";
         ShutilMove path;
         LogInfo "util" "ws agent pulled successfully." ],
       Ok tt, moved_to W path s)
  | TmpFileFailed =>
      ([ LogError "util" "an error occured while pulling ws agent" ],
       Raise AttributeError, s)
  | DownloadFailed _ =>
      ([ HttpGet ws_agent_url;
         LogError "util" "an error occured while pulling ws agent";
         OsUnlink (mkstemp W) ],
       Raise (RuntimeError "error pulling wss agent"), s)
  | MoveFailed _ =>
      ([ HttpGet ws_agent_url;
         LogInfo "util" "agent downloaded. Moving it to tmp dir...";
         ShutilMove path;
         LogError "util" "an error occured while pulling ws agent";
         OsUnlink (mkstemp W) ],
       Raise (RuntimeError "error pulling wss agent"), s)
  end.
Proof.
  unfold pull_latest_wss_agent. destruct (fetch W); reflexivity.
Qed.

Lemma pull_latest_result (W : World) (path : string) (s : state W) :
  result_of (pull_latest_wss_agent W path s) =
  match pull_failure (fetch W) with
  | None => Ok tt
  | Some e => Raise e
  end.
Proof. rewrite pull_latest_wss_agent_run. destruct (fetch W); reflexivity. Qed.

Lemma update_absent (W : World) (s : state W) :
  agent_mtime s = None ->
  let run := update_or_download_agent W s in
  let pull := pull_latest_wss_agent W (wss_agent_path W) s in
  trace_of run =
    LogInfo "util" "wss agent not found on file system. Pulling it now..."
    :: trace_of pull
  /\ result_of run = result_of pull
  /\ state_of run = state_of pull.
Proof.
  intros Habs. cbv zeta. unfold update_or_download_agent. run. rewrite Habs. run.
  rewrite pull_latest_wss_agent_run.
  destruct (fetch W); run; auto.
Qed.

Lemma update_present (W : World) (s : state W) (modification_date : Z) :
  agent_mtime s = Some modification_date ->
  update_or_download_agent W s =
  if modification_date <? clock W - max_age then
    ([ LogInfo "util" "ws agent is older than 24 hours. Agent will be updated...";
       ThreadStart (PullLatest (wss_agent_path W)) ],
     Ok tt, s)
  else
    ([ LogInfo "util"
         ("wss agent is up to date and present on file system paths.wss_agent_path='"
          ++ wss_agent_path W ++ "'. Using this one...")%string ],
     Ok tt, s).
Proof.
  intros Hagent. rewrite (run_eta (update_or_download_agent W s)).
  unfold update_or_download_agent. run. rewrite Hagent.
  destruct (modification_date <? clock W - max_age); run; reflexivity.
Qed.



(** * Paths *)

Lemma endswith_spec (s suf : string) :
  Py.endswith s suf = true -> exists p, s = (p ++ suf)%string.
Proof.
  induction s as [| c s IH]; cbn [Py.endswith]; intros H.
  - rewrite orb_false_r in H. apply String.eqb_eq in H. subst.
    exists ""%string. reflexivity.
  - apply orb_true_iff in H. destruct H as [H | H].
    + apply String.eqb_eq in H. exists ""%string. rewrite H. reflexivity.
    + destruct (IH H) as [p Hp]. exists (String c p). rewrite Hp. reflexivity.
Qed.

Lemma split_sep_cons (s : string) : exists h t, Py.split_sep s = h :: t.
Proof.
  destruct s as [| c s]; cbn [Py.split_sep]; [eauto|].
  destruct (Ascii.eqb c "/"); [eauto|].
  destruct (Py.split_sep s); eauto.
Qed.

(** Splitting at a separator splits the list of components. *)
Lemma split_sep_app (a b : string) :
  Py.split_sep (a ++ String "/" b) = Py.split_sep a ++ Py.split_sep b.
Proof.
  induction a as [| c a IH]; cbn [String.append Py.split_sep].
  - reflexivity.
  - destruct (Ascii.eqb c "/").
    + rewrite IH. reflexivity.
    + rewrite IH. destruct (split_sep_cons a) as (h & t & Ht). rewrite Ht.
      reflexivity.
Qed.

Lemma is_prefix_refl (l : list string) : is_prefix l l = true.
Proof. induction l as [| x l IH]; cbn; [|rewrite String.eqb_refl]; auto. Qed.

Lemma is_prefix_app (l r : list string) : is_prefix l (l ++ r) = true.
Proof. induction l as [| x l IH]; cbn; [|rewrite String.eqb_refl]; auto. Qed.

Lemma is_prefix_trans (a b c : list string) :
  is_prefix a b = true -> is_prefix b c = true -> is_prefix a c = true.
Proof.
  revert b c. induction a as [| x a IH]; intros b c Hab Hbc; [reflexivity|].
  destruct b as [| y b]; [discriminate|]. destruct c as [| z c]; [discriminate|].
  cbn in *. apply andb_true_iff in Hab, Hbc.
  destruct Hab as [Hxy Hab], Hbc as [Hyz Hbc].
  apply String.eqb_eq in Hxy, Hyz. subst.
  rewrite String.eqb_refl. cbn. eauto.
Qed.

(** Components other than [..] never climb above where they start. *)
Lemma resolve_steps_below (cs : list string) :
  forallb (fun c => negb (String.eqb c "..")) cs = true ->
  forall acc, is_prefix acc (fold_left resolve_step cs acc) = true.
Proof.
  induction cs as [| c cs IH]; cbn [forallb fold_left]; intros Hsafe acc.
  - apply is_prefix_refl.
  - apply andb_true_iff in Hsafe. destruct Hsafe as [Hc Hcs].
    apply is_prefix_trans with (b := resolve_step acc c); [|apply IH; exact Hcs].
    unfold resolve_step.
    destruct (String.eqb c "" || String.eqb c "."); [apply is_prefix_refl|].
    destruct (String.eqb c ".."); [discriminate|]. apply is_prefix_app.
Qed.

Lemma resolve_trailing_sep (p : string) :
  resolve (p ++ "/") = resolve p.
Proof.
  unfold resolve. rewrite split_sep_app, fold_left_app. reflexivity.
Qed.


Lemma inside_refl (a : string) : inside a a = true.
Proof. apply is_prefix_refl. Qed.

(** Joining a relative name without [..] stays inside the directory. *)
Lemma safe_join_inside (dir n : string) :
  safe_name n = true -> inside dir (Py.path_join dir n) = true.
Proof.
  unfold safe_name, inside, Py.path_join. intros Hsafe.
  apply andb_true_iff in Hsafe. destruct Hsafe as [Hrel Hcomp].
  apply negb_true_iff in Hrel. rewrite Hrel.
  destruct (String.eqb_spec dir "") as [-> | Hne]; cbn [orb].
  - reflexivity.
  - destruct (Py.endswith dir "/") eqn:Hend.
    + destruct (endswith_spec _ _ Hend) as [p ->].
      rewrite resolve_trailing_sep.
      replace ((p ++ "/") ++ n)%string with (p ++ String "/" n)%string.
      * unfold resolve. rewrite split_sep_app, fold_left_app.
        apply resolve_steps_below. exact Hcomp.
      * clear. induction p as [| c p IH]; cbn; [|rewrite IH]; reflexivity.
    + unfold resolve. cbn [String.append].
      rewrite split_sep_app, fold_left_app.
      apply resolve_steps_below. exact Hcomp.
Qed.

(** * What a computation can emit *)

Section Emits.

Context {W : World} (P : event -> Prop).

Lemma emits_ret {A} (a : A) : emits_only P (@ret W A a).
Proof. intros s. constructor. Qed.

Lemma emits_raise {A} e : emits_only P (@raise W A e).
Proof. intros s. constructor. Qed.

Lemma emits_lift {A} (r : result A) : emits_only P (@lift W A r).
Proof. intros s. constructor. Qed.

Lemma emits_get : emits_only P (@get W).
Proof. intros s. constructor. Qed.

Lemma emits_modify f : emits_only P (@modify W f).
Proof. intros s. constructor. Qed.

Lemma emits_emit ev : P ev -> emits_only P (@emit W ev).
Proof. intros H s. repeat constructor. exact H. Qed.

Lemma emits_bind {A B} (m : M W A) (k : A -> M W B) :
  emits_only P m -> (forall a, emits_only P (k a)) -> emits_only P (bind m k).
Proof.
  intros Hm Hk s. rewrite bind_trace. apply Forall_app. split; [apply Hm|].
  destruct (result_of (m s)); [apply Hk | constructor].
Qed.

Lemma emits_catch {A} (m : M W A) : emits_only P m -> emits_only P (catch m).
Proof. intros Hm s. rewrite catch_trace. apply Hm. Qed.

Lemma emits_finally {A} (m : M W A) (c : M W unit) :
  emits_only P m -> emits_only P c -> emits_only P (finally m c).
Proof.
  intros Hm Hc s. rewrite finally_trace. apply Forall_app. split; [apply Hm | apply Hc].
Qed.

Lemma emits_for_each {A} (xs : list A) (body : A -> M W unit) :
  (forall x, In x xs -> emits_only P (body x)) -> emits_only P (for_each xs body).
Proof.
  induction xs as [| x xs IH]; intros Hbody; cbn [for_each].
  - apply emits_ret.
  - apply emits_bind; [apply Hbody; left; reflexivity|].
    intros _. apply IH. intros y Hy. apply Hbody. right. exact Hy.
Qed.

Lemma emits_send_text payload :
  P (WsSendText payload) -> emits_only P (ws_send_text W payload).
Proof.
  intros H s. unfold ws_send_text. destruct (listening s); repeat constructor.
  exact H.
Qed.

End Emits.

Lemma emits_weaken {W : World} {A} (P Q : event -> Prop) (m : M W A) :
  (forall ev, P ev -> Q ev) -> emits_only P m -> emits_only Q m.
Proof. intros HPQ Hm s. eapply Forall_impl; [exact HPQ | apply Hm]. Qed.

(** Walks through a computation built from the combinators, leaving the
    calls it emits to be checked against the predicate; [known] is tried
    first on every part. *)
Ltac emits_with known :=
  repeat
    first
      [ known
      | apply emits_ret | apply emits_raise | apply emits_lift
      | apply emits_get | apply emits_modify
      | apply emits_emit
      | apply emits_send_text
      | apply emits_bind; [| intros ?]
      | apply emits_catch
      | apply emits_finally
      | apply emits_for_each; intros ? _
      | match goal with
        | |- emits_only _ (match ?x with _ => _ end) => destruct x
        | |- emits_only _ (if ?b then _ else _) => destruct b
        end
      | progress unfold log_info, ws_accept, ws_close, decode_utf8,
          subprocess, os_remove, os_link_agent ].

Ltac emits := emits_with fail.

Lemma pull_latest_housekeeping (W : World) path :
  emits_only housekeeping (pull_latest_wss_agent W path).
Proof. unfold pull_latest_wss_agent. emits; exact I. Qed.

Lemma update_housekeeping (W : World) :
  emits_only housekeeping (update_or_download_agent W).
Proof.
  unfold update_or_download_agent. emits; exact I.
Qed.

Lemma hardlink_housekeeping (W : World) tmp_dir :
  emits_only housekeeping (get_wss_agent_hardlink W tmp_dir).
Proof.
  unfold get_wss_agent_hardlink. emits; exact I.
Qed.

Lemma scan_component_housekeeping (W : World) dir path ws_config plogger :
  emits_only housekeeping (_scan_component W dir path ws_config plogger).
Proof.
  unfold _scan_component, generate_config, _add_configuration, run_whitesource_scan.
  emits; exact I.
Qed.

Lemma respond_not_extract (W : World) result :
  emits_only not_extract (respond W result).
Proof. unfold respond. emits; exact I. Qed.

Lemma housekeeping_not_extract ev : housekeeping ev -> not_extract ev.
Proof. destruct ev; cbn; auto. Qed.

Lemma housekeeping_not_send ev : housekeeping ev -> not_send ev.
Proof. destruct ev; cbn; auto. Qed.


Lemma emits_receive_text (W : World) (P : event -> Prop) :
  P WsReceiveText -> emits_only P (ws_receive_text W).
Proof.
  intros H s. unfold ws_receive_text.
  destruct (inbox s) as [| [text | chunk] rest]; repeat constructor; exact H.
Qed.

Lemma emits_receive_payload (W : World) (P : event -> Prop) plogger len :
  P WsReceiveData ->
  (forall chunk, P (FileWrite chunk)) ->
  (forall received, P (LogProgress plogger received len)) ->
  emits_only P (receive_payload W plogger len).
Proof.
  intros Hreq Hwrite Hlog s. unfold receive_payload.
  generalize 0 at 1. generalize (@nil byte).
  induction (inbox s) as [| [text | chunk] rest IH]; intros tar_file received;
    cbn [receive_chunks]; destruct (received <? len);
    try (repeat constructor; assumption).
  specialize (IH (tar_file ++ chunk) (received + Z.of_nat (List.length chunk))).
  destruct (receive_chunks plogger len _ _ rest) as [[t r] remaining].
  cbn [trace_of fst] in *. repeat constructor; auto.
Qed.

Lemma emits_extract_members (W : World) (P : event -> Prop) path f :
  (forall tar_info fault, P (TarExtract tar_info path fault)) ->
  emits_only P (extract_members W path f).
Proof.
  intros H s. rewrite extract_members_trace.
  induction f as [| [tar_info [e |] | e] rest IH]; cbn [extract_calls];
    repeat constructor; auto.
Qed.

(** * What a computation leaves alone

    [keeps f m]: the reading [f] of the state is the same after [m] as
    before it. *)

Section Keeps.

Context {W : World} {X : Type} (f : state W -> X).

Lemma keeps_ret {A} (a : A) : keeps f (@ret W A a).
Proof. intros s. reflexivity. Qed.

Lemma keeps_raise {A} e : keeps f (@raise W A e).
Proof. intros s. reflexivity. Qed.

Lemma keeps_lift {A} (r : result A) : keeps f (@lift W A r).
Proof. intros s. reflexivity. Qed.

Lemma keeps_get : keeps f (@get W).
Proof. intros s. reflexivity. Qed.

Lemma keeps_emit ev : keeps f (@emit W ev).
Proof. intros s. reflexivity. Qed.

Lemma keeps_modify g : (forall s, f (g s) = f s) -> keeps f (@modify W g).
Proof. intros H s. apply H. Qed.

Lemma keeps_bind {A B} (m : M W A) (k : A -> M W B) :
  keeps f m -> (forall a, keeps f (k a)) -> keeps f (bind m k).
Proof.
  intros Hm Hk s. rewrite bind_state.
  destruct (result_of (m s)); [rewrite Hk|]; apply Hm.
Qed.

Lemma keeps_catch {A} (m : M W A) : keeps f m -> keeps f (catch m).
Proof. intros Hm s. rewrite catch_state. apply Hm. Qed.

Lemma keeps_finally {A} (m : M W A) (c : M W unit) :
  keeps f m -> keeps f c -> keeps f (finally m c).
Proof. intros Hm Hc s. rewrite finally_state, Hc. apply Hm. Qed.

Lemma keeps_for_each {A} (xs : list A) (body : A -> M W unit) :
  (forall x, keeps f (body x)) -> keeps f (for_each xs body).
Proof.
  intros Hbody. induction xs as [| x xs IH]; cbn [for_each].
  - apply keeps_ret.
  - apply keeps_bind; [apply Hbody | intros _; exact IH].
Qed.

End Keeps.

(** Walks through a computation built from the combinators, leaving the
    changes of state it makes to be checked; [known] is tried first on
    every part. *)
Ltac keeps_with known :=
  repeat
    first
      [ known
      | match goal with
        | |- keeps _ (ret _) => apply keeps_ret
        | |- keeps _ (raise _) => apply keeps_raise
        | |- keeps _ (lift _) => apply keeps_lift
        | |- keeps _ get => apply keeps_get
        | |- keeps _ (emit _) => apply keeps_emit
        | |- keeps _ (modify _) => apply keeps_modify; intros ?
        | |- keeps _ (bind _ _) => apply keeps_bind; [| intros ?]
        | |- keeps _ (catch _) => apply keeps_catch
        | |- keeps _ (finally _ _) => apply keeps_finally
        | |- keeps _ (for_each _ _) => apply keeps_for_each; intros ?; cbv beta
        | |- keeps _ (match ?x with _ => _ end) => destruct x
        | |- keeps _ (if ?b then _ else _) => destruct b
        end
      | progress unfold log_info, ws_accept, ws_close, decode_utf8,
          subprocess, os_remove, os_link_agent, tarfile_open ].

Lemma keeps_receive_text (W : World) {X} (f : state W -> X) :
  (forall i s, f (set_inbox i s) = f s) -> keeps f (ws_receive_text W).
Proof.
  intros H s. unfold ws_receive_text.
  destruct (inbox s) as [| [text | chunk] rest]; cbn [state_of snd]; auto.
Qed.

Lemma keeps_receive_payload (W : World) {X} (f : state W -> X) plogger len :
  (forall i s, f (set_inbox i s) = f s) -> keeps f (receive_payload W plogger len).
Proof.
  intros H s. unfold receive_payload.
  destruct (receive_chunks plogger len 0 [] (inbox s)) as [[t r] remaining].
  apply H.
Qed.

Lemma keeps_extract_members (W : World) {X} (f : state W -> X) path g :
  (forall d s, f (set_disk d s) = f s) -> keeps f (extract_members W path g).
Proof.
  intros H. induction g as [| [tar_info [e |] | e] rest IH];
    cbn [extract_members]; keeps_with ltac:(exact IH); apply H.
Qed.

Lemma moved_to_listening (W : World) dst (s : state W) :
  listening (moved_to W dst s) = listening s.
Proof. unfold moved_to. destruct (String.eqb dst (wss_agent_path W)); reflexivity. Qed.

Lemma moved_to_disk (W : World) dst (s : state W) :
  disk (moved_to W dst s) = disk s.
Proof. unfold moved_to. destruct (String.eqb dst (wss_agent_path W)); reflexivity. Qed.

Lemma moved_to_inbox (W : World) dst (s : state W) :
  inbox (moved_to W dst s) = inbox s.
Proof. unfold moved_to. destruct (String.eqb dst (wss_agent_path W)); reflexivity. Qed.

(** Nothing before the answer touches what the peer still takes. *)
Lemma receive_control_listening (W : World) : keeps listening (receive_control W).
Proof.
  unfold receive_control.
  keeps_with ltac:(apply keeps_receive_text; intros; reflexivity).
Qed.

Lemma receive_payload_listening (W : World) plogger len :
  keeps listening (receive_payload W plogger len).
Proof. apply keeps_receive_payload. reflexivity. Qed.

Lemma extract_archive_listening (W : World) plogger tmp_dir tar_file :
  keeps listening (extract_archive W plogger tmp_dir tar_file).
Proof.
  unfold extract_archive, extract_layer.
  keeps_with ltac:(apply keeps_extract_members; intros; reflexivity);
    reflexivity.
Qed.

Lemma hardlink_listening (W : World) tmp_dir :
  keeps listening (get_wss_agent_hardlink W tmp_dir).
Proof.
  unfold get_wss_agent_hardlink, update_or_download_agent, pull_latest_wss_agent.
  keeps_with fail; try reflexivity; apply moved_to_listening.
Qed.

Lemma scan_component_keeps (W : World) {X} (f : state W -> X) dir path ws_config plogger :
  keeps f (_scan_component W dir path ws_config plogger).
Proof.
  unfold _scan_component, generate_config, _add_configuration, run_whitesource_scan.
  keeps_with fail.
Qed.

Lemma hardlink_disk (W : World) tmp_dir : keeps disk (get_wss_agent_hardlink W tmp_dir).
Proof.
  unfold get_wss_agent_hardlink, update_or_download_agent, pull_latest_wss_agent.
  keeps_with fail; try reflexivity; apply moved_to_disk.
Qed.

(** * The answer *)

Lemma or_empty_id (x : string) : Py.or_empty x = x.
Proof. unfold Py.or_empty. destruct (String.eqb_spec x ""); subst; reflexivity. Qed.

(** Two sends in a row reach the peer as long as it takes them: a send
    that finds it gone raises and ends the pair. *)
Lemma send_both (W : World) (a b : string) (s : state W) :
  bind (ws_send_text W a) (fun _ => ws_send_text W b) s =
  (map WsSendText (firstn (listening s) [a; b]),
   if (2 <=? listening s)%nat then Ok tt else Raise WebSocketDisconnected,
   set_listening (listening s - 2) s).
Proof.
  unfold bind, ws_send_text. destruct s as [i d m [| [| n]]]; cbn;
    rewrite ?Nat.sub_0_r, ?firstn_nil; reflexivity.
Qed.

Lemma respond_run (W : World) (result : CompletedProcess) (s : state W) :
  output_decodes result = true ->
  respond W result s =
  (map WsSendText (firstn (listening s) (answers W result)),
   if (2 <=? listening s)%nat then Ok tt else Raise WebSocketDisconnected,
   set_listening (listening s - 2) s).
Proof.
  unfold output_decodes, respond, answers, scan_result, decode_utf8,
    _build_scan_result_response. intros Hdec.
  apply andb_true_iff in Hdec. destruct Hdec as [Hout Herr].
  destruct (returncode result =? 0) eqn:Hrc; cbn [orb] in Herr.
  - rewrite Hout. unfold bind at 1 2. cbn [ret].
    rewrite or_empty_id, send_both. reflexivity.
  - rewrite Herr, Hout. unfold bind at 1 2 3. cbn [ret app].
    rewrite !or_empty_id, send_both. reflexivity.
Qed.

(** An output that does not decode is not answered at all. *)
Lemma respond_undecodable (W : World) (result : CompletedProcess) (s : state W) :
  output_decodes result = false ->
  respond W result s = ([], Raise UnicodeDecodeError, s).
Proof.
  unfold output_decodes, respond, decode_utf8. intros Hdec.
  apply andb_false_iff in Hdec.
  destruct (returncode result =? 0) eqn:Hrc; cbn [orb] in Hdec.
  - destruct Hdec as [Hout | Habs]; [| discriminate Habs].
    rewrite Hout. reflexivity.
  - destruct (Utf8.valid (stderr result)) eqn:Herr.
    + destruct Hdec as [Hout | Habs]; [| discriminate Habs].
      rewrite Hout. reflexivity.
    + reflexivity.
Qed.

Lemma scan_and_respond_run (W : World) (plogger tmp_dir : string)
    (ws_config : WSConfig) (s : state W) (link : string)
    (result : CompletedProcess) :
  let agent := get_wss_agent_hardlink W tmp_dir s in
  let scan := _scan_component W tmp_dir tmp_dir ws_config plogger (state_of agent) in
  result_of agent = Ok link ->
  result_of scan = Ok result ->
  output_decodes result = true ->
  scan_and_respond W plogger tmp_dir ws_config s =
  (LogInfo plogger "scan start"
   :: trace_of agent ++ trace_of scan
   ++ OsUnlink link :: map WsSendText (firstn (listening s) (answers W result)),
   if (2 <=? listening s)%nat then Ok tt else Raise WebSocketDisconnected,
   set_listening (listening s - 2) (state_of scan)).
Proof.
  intros agent scan Hagent Hscan Hdec. subst agent scan.
  rewrite (run_eta (scan_and_respond W plogger tmp_dir ws_config s)).
  unfold scan_and_respond. run. rewrite Hagent. run. rewrite Hscan. run.
  rewrite (respond_run W result _ Hdec).
  rewrite (scan_component_keeps W listening), (hardlink_listening W).
  cbn [trace_of result_of state_of fst snd]. reflexivity.
Qed.

Lemma extract_archive_not_send (W : World) plogger tmp_dir tar_file :
  emits_only not_send (extract_archive W plogger tmp_dir tar_file).
Proof.
  unfold extract_archive, extract_layer.
  emits_with ltac:(apply emits_extract_members); try exact I; intros; exact I.
Qed.

Lemma receive_payload_not_send (W : World) plogger len :
  emits_only not_send (receive_payload W plogger len).
Proof. apply emits_receive_payload; intros; exact I. Qed.

(** C8, amended. When the session reaches the scan step, the agent runs to
    completion and its captured output decodes as UTF-8 (the standard
    output, and the standard error too after a non-zero exit), the handler
    sends, after everything else and before it cleans the scratch
    directory up, first the exit code in decimal and then the JSON
    encoding of the result, whose [successful] is true exactly when the
    exit code is 0 and whose [message] is the standard output alone for
    exit code 0 and the standard error followed by the standard output
    otherwise. Both messages are sent to a peer that still takes two; a
    peer that is gone by the first or by the second send gets none or only
    the first, and the handler returns all the same. *)
Theorem scan_response (W : World) (s : state W) (m c : string)
    (rest : list frame) (metadata : Metadata) (ws_config : WSConfig)
    (received : Z) (tar_file : list byte) (link : string)
    (result : CompletedProcess) :
  let plogger := protocol.projectName ws_config in
  let tmp_dir := mkdtemp W in
  let staging := receive_payload W plogger (protocol.length metadata) (set_inbox rest s) in
  let extraction := extract_archive W plogger tmp_dir tar_file (state_of staging) in
  let agent := get_wss_agent_hardlink W tmp_dir (state_of extraction) in
  let scan := _scan_component W tmp_dir tmp_dir ws_config plogger (state_of agent) in
  inbox s = TextFrame m :: TextFrame c :: rest ->
  decode_metadata W m = Ok metadata ->
  decode_config W c = Ok ws_config ->
  protocol.chunkSize metadata <= protocol.length metadata ->
  result_of staging = Ok (received, tar_file) ->
  result_of extraction = Ok tt ->
  result_of agent = Ok link ->
  result_of scan = Ok result ->
  output_decodes result = true ->
  let run := on_websocket W s in
  let answer :=
    [ WsSendText (Py.str (returncode result));
      WsSendText (json_dumps W (scan_result result)) ] in
  result_of run = Ok tt
  /\ (exists pre,
        trace_of run = pre ++ firstn (listening s) answer ++ [TmpDirCleanup tmp_dir]
        /\ Forall not_send pre)
  /\ ((2 <= listening s)%nat ->
      exists pre,
        trace_of run = pre ++ answer ++ [TmpDirCleanup tmp_dir]
        /\ Forall not_send pre).
Proof.
  intros plogger tmp_dir staging extraction agent scan
    Hin Hm Hc Hcmp Hst Hex Hagent Hscan Hdec run answer.
  assert (Hlisten : listening (state_of extraction) = listening s).
  { unfold extraction, staging.
    rewrite (extract_archive_listening W), (receive_payload_listening W).
    reflexivity. }
  assert (Hrun :
    result_of run = Ok tt
    /\ exists pre,
         trace_of run = pre ++ firstn (listening s) answer ++ [TmpDirCleanup tmp_dir]
         /\ Forall not_send pre).
  { subst run. rewrite on_websocket_run.
    rewrite (receive_control_ok W s m c rest metadata ws_config Hin Hm Hc).
    cbv zeta. cbn [trace_of result_of state_of fst snd].
    rewrite session_run.
    destruct (Z.gtb_spec (protocol.chunkSize metadata) (protocol.length metadata));
      [lia|].
    cbv zeta. cbn [trace_of result_of state_of fst snd].
    rewrite ingest_and_scan_run. cbv zeta.
    fold plogger tmp_dir. fold staging. rewrite Hst. fold extraction. rewrite Hex.
    rewrite (scan_and_respond_run W plogger tmp_dir ws_config (state_of extraction)
               link result Hagent Hscan Hdec).
    fold agent. fold scan. rewrite Hlisten.
    cbn [trace_of result_of state_of fst snd].
    split; [destruct (2 <=? listening s)%nat; reflexivity|].
    exists ([WsAccept; LogInfo "component" "receiving metadata..."; WsReceiveText;
             LogInfo "component" "receiving whitesource config..."; WsReceiveText;
             TmpDirCreate tmp_dir; LogInfo plogger "transfer start"]
            ++ trace_of staging
            ++ [LogProgress plogger received (protocol.length metadata);
                LogInfo plogger "transfer done"]
            ++ trace_of extraction
            ++ [LogInfo plogger "scan start"]
            ++ trace_of agent ++ trace_of scan ++ [OsUnlink link]).
    split.
    - unfold answer, answers. rewrite <- firstn_map.
      repeat (cbn [app map]; rewrite <- ?app_assoc). reflexivity.
    - rewrite !Forall_app. repeat split.
      + repeat constructor.
      + apply receive_payload_not_send.
      + repeat constructor.
      + apply extract_archive_not_send.
      + repeat constructor.
      + eapply Forall_impl; [exact housekeeping_not_send|].
        apply hardlink_housekeeping.
      + eapply Forall_impl; [exact housekeeping_not_send|].
        apply scan_component_housekeeping.
      + repeat constructor. }
  destruct Hrun as (Hres & pre & Htrace & Hpre).
  split; [exact Hres|]. split; [exists pre; auto|].
  intros Hstays. exists pre. split; [| exact Hpre].
  rewrite Htrace. destruct (listening s) as [| [| n]]; [lia | lia |].
  cbn [firstn answer]. rewrite firstn_nil. reflexivity.
Qed.

(** * Layers *)

(** Members after the first fault of a stream are never handed to
    [extract]. *)
Lemma extract_calls_stop (path : string) (before after : list tar_step)
    (tar_info : TarInfo) (e : exn) :
  stream_fault before = None ->
  extract_calls path (before ++ Member tar_info (Some e) :: after) =
  extract_calls path before ++ [TarExtract tar_info path (Some e)].
Proof.
  induction before as [| [ti [e' |] | e'] before IH]; cbn [stream_fault];
    intros Hnone; try discriminate.
  - reflexivity.
  - cbn [app extract_calls]. rewrite IH by exact Hnone. reflexivity.
Qed.

(** One round of the loop over the directory listing, for a file whose
    name ends in [.tar] and which opens as an archive. *)
Lemma extract_layer_run (W : World) (plogger tmp_dir file : string)
    (f : list tar_step) (s : state W) :
  Py.endswith file ".tar" = true ->
  result_of (tarfile_open W (Py.path_join tmp_dir file) s) = Ok f ->
  let run := extract_layer W plogger tmp_dir file s in
  let calls := extract_calls (layer_dir tmp_dir file) f in
  let remove := OsRemove (Py.path_join tmp_dir file) in
  match stream_fault f with
  | None => trace_of run = calls ++ [remove] /\ result_of run = Ok tt
  | Some StreamError =>
      trace_of run =
        calls ++ [LogWarn plogger "skipping duplicate (probably symlink)"; remove]
      /\ result_of run = Ok tt
  | Some KeyError =>
      trace_of run = calls ++ [LogWarn plogger "linkname not found, skipping"; remove]
      /\ result_of run = Ok tt
  | Some e => trace_of run = calls /\ result_of run = Raise e
  end.
Proof.
  intros Hend Hopen. cbv zeta. unfold extract_layer, layer_dir. rewrite Hend.
  assert (Htr : trace_of (tarfile_open W (Py.path_join tmp_dir file) s) = []).
  { unfold tarfile_open. run.
    destruct (fs_read W _ (disk s)); run; reflexivity. }
  assert (Hst : state_of (tarfile_open W (Py.path_join tmp_dir file) s) = s).
  { unfold tarfile_open. run.
    destruct (fs_read W _ (disk s)); run; reflexivity. }
  unfold os_remove. run. rewrite Hopen, Htr, Hst. run.
  rewrite extract_members_result, extract_members_trace.
  destruct (stream_fault f) as [[] |]; run; rewrite ?app_nil_r; auto.
Qed.

(** An occurrence of the suffix cannot begin inside a non-empty stem and
    end inside the suffix appended to it. *)
Lemma prefix_tar_stem (c0 : ascii) (stem : string) :
  String.prefix ".tar" (String c0 stem) = false ->
  String.prefix ".tar" (String c0 stem ++ ".tar") = false.
Proof.
  destruct stem as [| c1 [| c2 [| c3 stem]]];
    cbn [String.append String.prefix]; intros H;
    repeat match goal with
           | |- context [ascii_dec ?a ?b] =>
               destruct (ascii_dec a b) as [e |]; [try discriminate e; subst |]
           end;
    try reflexivity.
  destruct stem; discriminate H.
Qed.

(** A name with no [.tar] before its suffix loses just the suffix. *)
Lemma replace_strips_suffix (stem : string) :
  occurs ".tar" stem = false ->
  Py.replace (stem ++ ".tar") ".tar" "" = stem.
Proof.
  unfold Py.replace. induction stem as [| c stem IH]; intros Hocc.
  - reflexivity.
  - cbn [occurs] in Hocc. apply orb_false_iff in Hocc. destruct Hocc as [Hpre Hocc].
    change ((String c stem ++ ".tar")%string) with (String c (stem ++ ".tar")).
    cbn [Py.replace_from].
    change (String c (stem ++ ".tar")) with ((String c stem ++ ".tar")%string).
    rewrite (prefix_tar_stem _ _ Hpre). rewrite IH by exact Hocc. reflexivity.
Qed.

Lemma layer_dir_plain (tmp_dir stem : string) :
  occurs ".tar" stem = false ->
  layer_dir tmp_dir (stem ++ ".tar") = Py.path_join tmp_dir stem.
Proof. intros H. unfold layer_dir. rewrite replace_strips_suffix by exact H. reflexivity. Qed.

(** * Where the handler extracts *)












(** * The handler on concrete sessions *)

Section Concrete.
Import Scenario.


(** C2, counterexample. Declared length 3, chunk size 2, two chunks of two
    bytes: the loop ends with four bytes in the staging file. *)
Lemma staging_overshoots : ~ stages_declared_length W_overshoot s_overshoot.
Proof.
  unfold stages_declared_length. intros Hexact.
  specialize (Hexact "META"%string "CONFIG"%string
                [BinaryFrame (Demo.bytes "ab"); BinaryFrame (Demo.bytes "cd")]
                (Demo.metadata 3 2) Demo.config 4 (Demo.bytes "abcd")
                eq_refl eq_refl eq_refl).
  assert (Hcmp : protocol.chunkSize (Demo.metadata 3 2)
                 <= protocol.length (Demo.metadata 3 2)) by (cbn; lia).
  specialize (Hexact Hcmp eq_refl). vm_compute in Hexact. discriminate Hexact.
Qed.


(** C8, counterexample. The agent exits 0 and its standard output is the
    single byte 0xFF: decoding raises, the exception leaves the handler
    and nothing is sent. *)
Lemma undecodable_output_unanswered :
  ~ answers_completed_run W_binary_output s_binary_output.
Proof.
  unfold answers_completed_run. intros Hanswer.
  specialize (Hanswer "META"%string "CONFIG"%string
                [BinaryFrame (Demo.bytes "OUTE"); BinaryFrame (Demo.bytes "RTAR")]
                (Demo.metadata 8 4) Demo.config 8 (Demo.bytes "OUTERTAR")
                "/tmp/scratch/wss-unified-agent.jar"%string
                {| returncode := 0; stdout := [xff]; stderr := [] |}
                eq_refl eq_refl eq_refl).
  cbv zeta in Hanswer.
  assert (Hcmp : protocol.chunkSize (Demo.metadata 8 4)
                 <= protocol.length (Demo.metadata 8 4)) by (cbn; lia).
  specialize (Hanswer Hcmp eq_refl eq_refl eq_refl eq_refl).
  destruct Hanswer as (pre & payload & Htrace).
  assert (Hsent : sent (trace_of (on_websocket W_binary_output s_binary_output)) = [])
    by (vm_compute; reflexivity).
  rewrite Htrace in Hsent. unfold sent in Hsent.
  rewrite flat_map_app in Hsent. apply app_eq_nil in Hsent.
  destruct Hsent as [_ Hsent]. discriminate Hsent.
Qed.

(** C3, at a layer named [a.tar.b.tar]. The name ends in [.tar]; the
    handler extracts the layer into [/tmp/scratch/a.b], every [.tar] of the
    name removed, not into [/tmp/scratch/a.tar.b], and removes the layer
    file. *)
Theorem interior_suffix_removed :
  let run := on_websocket W_interior s_interior in
  Py.endswith "a.tar.b.tar" ".tar" = true
  /\ layer_dir "/tmp/scratch" "a.tar.b.tar" = "/tmp/scratch/a.b"%string
  /\ extracted_into "/tmp/scratch" (trace_of run) = ["a.tar.b.tar"]%string
  /\ extracted_into "/tmp/scratch/a.b" (trace_of run) = ["app/manifest.json"]%string
  /\ extracted_into "/tmp/scratch/a.tar.b" (trace_of run) = []
  /\ removed (trace_of run) = ["/tmp/scratch/a.tar.b.tar"]%string
  /\ disk (state_of run) = [("/tmp/scratch/a.b/app/manifest.json"%string, Demo.bytes "{}")]
  /\ result_of run = Ok tt.
Proof. vm_compute. repeat split; reflexivity. Qed.

(** C4, at a layer of three members whose second is a link with a missing
    target. Extracting the link raises [KeyError]: the handler logs the
    warning, removes the layer file and goes on to the scan, which is
    answered; the first member is extracted, the third member, which comes
    after the link in the stream, is not. *)
Theorem link_fault_drops_rest :
  let run := on_websocket W_link s_link in
  tar_open W_link (Demo.bytes "INNER") =
    Ok [ Member (Demo.file "bin/tool" "ELF") None;
         Member (Demo.file "bin/alias" "") (Some KeyError);
         Member (Demo.file "app/manifest.json" "{}") None ]
  /\ extracted_into "/tmp/scratch/layerA" (trace_of run) = ["bin/tool"]%string
  /\ warnings (trace_of run) = ["linkname not found, skipping"]%string
  /\ removed (trace_of run) = ["/tmp/scratch/layerA.tar"]%string
  /\ disk (state_of run) = [("/tmp/scratch/layerA/bin/tool"%string, Demo.bytes "ELF")]
  /\ sent (trace_of run) = ["0"; "{successful: true, message: scan ok}"]%string
  /\ result_of run = Ok tt.
Proof. vm_compute. repeat split; reflexivity. Qed.

(** C9, at metadata that is the JSON value [null]. It has none of the
    required fields, the decoder raises [TypeError], which the handler
    does not name: the exception leaves the handler after the first
    receive and no close code is sent. The empty object, which the decoder
    rejects with [MissingValueError], is answered with
    CONTRACT_VIOLATION. *)
Theorem null_control_unanswered :
  let run := on_websocket W_null s_null in
  decode_metadata W_null "null" = Raise (OtherError "TypeError")
  /\ trace_of run
     = [WsAccept; LogInfo "component" "receiving metadata..."; WsReceiveText]
  /\ closes (trace_of run) = []
  /\ result_of run = Raise (OtherError "TypeError")
  /\ decode_metadata W_null "{}" = Raise MissingValueError
  /\ closes (trace_of (on_websocket W_null s_empty_object))
     = [protocol.CONTRACT_VIOLATION]
  /\ result_of (on_websocket W_null s_empty_object) = Ok tt.
Proof. vm_compute. repeat split; reflexivity. Qed.

(** ** The theorems at concrete sessions *)




(** The staging theorem at the session whose final chunk overshoots. *)
Lemma staged_bytes_witness :
  let s := Demo.start W_overshoot [] [BinaryFrame (Demo.bytes "ab"); BinaryFrame (Demo.bytes "cd")] fresh_agent in
  let run := receive_payload W_overshoot "demo" 3 s in
  result_of run = Ok (4, Demo.bytes "abcd")
  /\ exists chunks,
       inbox s = map BinaryFrame chunks ++ inbox (state_of run)
       /\ Demo.bytes "abcd" = List.concat chunks
       /\ written_bytes (trace_of run) = 4
       /\ 3 <= 4
       /\ (forall init final, chunks = init ++ [final] ->
             Z.of_nat (List.length (List.concat init)) < 3).
Proof.
  cbv zeta. split; [reflexivity|].
  destruct (staged_bytes W_overshoot "demo" (Demo.metadata 3 2)
              (Demo.start W_overshoot []
                 [BinaryFrame (Demo.bytes "ab"); BinaryFrame (Demo.bytes "cd")]
                 fresh_agent)
              4 (Demo.bytes "abcd") eq_refl)
    as (chunks & Hin & Hfile & Hwr & _ & Hlen & Hlast).
  exists chunks. repeat split; auto.
Defined.

(** The chunk-size theorem at a session declaring length 100 and chunk
    size 200, and at the well-formed upload. *)
Lemma chunk_size_check_witness :
  protocol.chunkSize (Demo.metadata 100 200) > protocol.length (Demo.metadata 100 200)
  /\ trace_of (on_websocket W_big_chunk s_big_chunk)
     = control_trace ++ [WsClose protocol.CHUNK_SIZE_TOO_BIG]
  /\ payload_requests (trace_of (on_websocket W_big_chunk s_big_chunk)) = 0%nat
  /\ protocol.chunkSize (Demo.metadata 8 4) <= protocol.length (Demo.metadata 8 4)
  /\ exists t,
       trace_of (on_websocket W_ok s_ok) =
         control_trace
         ++ TmpDirCreate "/tmp/scratch" :: LogInfo "demo" "transfer start"
            :: WsReceiveData :: t.
Proof.
  assert (Hbig : protocol.chunkSize (Demo.metadata 100 200)
                 > protocol.length (Demo.metadata 100 200)) by (cbn; lia).
  assert (Hfit : protocol.chunkSize (Demo.metadata 8 4)
                 <= protocol.length (Demo.metadata 8 4)) by (cbn; lia).
  destruct (chunk_size_check W_big_chunk s_big_chunk "META" "CONFIG" _
              (Demo.metadata 100 200) Demo.config eq_refl eq_refl eq_refl)
    as [Hclose _].
  destruct (Hclose Hbig) as (Htrace & Hreq & _).
  destruct (chunk_size_check W_ok s_ok "META" "CONFIG" _
              (Demo.metadata 8 4) Demo.config eq_refl eq_refl eq_refl)
    as [_ Hgo].
  destruct (Hgo Hfit) as (t & Ht & Hfirst).
  destruct Hfirst as [t' Ht']; [cbn; lia|]. subst t.
  repeat split; auto. exists t'. exact Ht.
Defined.

(** The contract theorem at metadata lacking a field. *)
Lemma contract_violation_witness :
  rejected_control W_missing_field (inbox s_missing_field) = true
  /\ trace_of (on_websocket W_missing_field s_missing_field)
     = firstn 3 control_trace ++ [WsClose protocol.CONTRACT_VIOLATION]
  /\ result_of (on_websocket W_missing_field s_missing_field) = Ok tt.
Proof.
  split; [reflexivity|].
  destruct (contract_violation W_missing_field s_missing_field eq_refl)
    as (_ & _ & Hres).
  split; [reflexivity | exact Hres].
Defined.

(** The empty-transfer theorem at a session declaring length 0. *)
Lemma empty_transfer_witness :
  tar_open W_empty [] = Raise ReadError
  /\ closes (trace_of (on_websocket W_empty s_empty)) = [protocol.BINARY_CORRUPTED]
  /\ payload_requests (trace_of (on_websocket W_empty s_empty)) = 0%nat
  /\ inbox (state_of (on_websocket W_empty s_empty)) = [BinaryFrame (Demo.bytes "unread")].
Proof.
  split; [reflexivity|].
  destruct (empty_transfer W_empty s_empty "META" "CONFIG" _
              (Demo.metadata 0 0) Demo.config ReadError
              eq_refl eq_refl eq_refl eq_refl eq_refl eq_refl eq_refl)
    as (Htrace & Hreq & _ & Hin).
  rewrite Htrace. repeat split; auto.
Defined.


(** The answer theorem at an agent run that exits 2, with a peer that
    stays and with a peer that leaves after the first answer. *)
Lemma scan_response_witness :
  output_decodes {| returncode := 2;
                    stdout := Demo.bytes "policy violation";
                    stderr := Demo.bytes "error: " |} = true
  /\ (exists pre,
        trace_of (on_websocket W_failed_scan s_failed_scan) =
          pre ++ [ WsSendText "2";
                   WsSendText "{successful: false, message: error: policy violation}";
                   TmpDirCleanup "/tmp/scratch" ]
        /\ Forall not_send pre)
  /\ (exists pre,
        trace_of (on_websocket W_failed_scan (Demo.leaving 1 s_failed_scan)) =
          pre ++ [ WsSendText "2"; TmpDirCleanup "/tmp/scratch" ]
        /\ Forall not_send pre)
  /\ result_of (on_websocket W_failed_scan (Demo.leaving 1 s_failed_scan)) = Ok tt.
Proof.
  split; [reflexivity|].
  assert (Hcmp : protocol.chunkSize (Demo.metadata 8 4)
                 <= protocol.length (Demo.metadata 8 4)) by (cbn; lia).
  destruct (scan_response W_failed_scan s_failed_scan "META" "CONFIG" _
              (Demo.metadata 8 4) Demo.config 8 (Demo.bytes "OUTERTAR")
              "/tmp/scratch/wss-unified-agent.jar"
              {| returncode := 2;
                 stdout := Demo.bytes "policy violation";
                 stderr := Demo.bytes "error: " |}
              eq_refl eq_refl eq_refl Hcmp eq_refl eq_refl eq_refl eq_refl eq_refl)
    as (_ & _ & Hboth).
  destruct (scan_response W_failed_scan (Demo.leaving 1 s_failed_scan)
              "META" "CONFIG" _
              (Demo.metadata 8 4) Demo.config 8 (Demo.bytes "OUTERTAR")
              "/tmp/scratch/wss-unified-agent.jar"
              {| returncode := 2;
                 stdout := Demo.bytes "policy violation";
                 stderr := Demo.bytes "error: " |}
              eq_refl eq_refl eq_refl Hcmp eq_refl eq_refl eq_refl eq_refl eq_refl)
    as (Hres & Hfirst & _).
  split; [exact (Hboth (le_n 2))|]. split; [exact Hfirst | exact Hres].
Defined.


End Concrete.

(** * Invariants of every session *)

(** Walks through any part of the handler. *)
Ltac emits_all :=
  emits_with
    ltac:(first [ apply emits_receive_text
                | apply emits_receive_payload
                | apply emits_extract_members ]);
  try exact I; intros; try exact I.

(** Splits a run of the handler into its seven ways to end: the chunk
    size check fails; the scan step is reached; the extraction raises an
    archive fault; the extraction raises something else; the receive loop
    raises; a control message is rejected; the control phase raises
    something else. *)
Ltac session_cases W s :=
  rewrite (on_websocket_run W s); cbv zeta;
  let metadata := fresh "metadata" in
  let ws_config := fresh "ws_config" in
  let e := fresh "e" in
  destruct (result_of (receive_control W s)) as [[metadata ws_config] | e];
  [ rewrite session_run;
    destruct (protocol.chunkSize metadata >? protocol.length metadata);
    [| cbv zeta; rewrite ingest_and_scan_run; cbv zeta;
       let received := fresh "received" in
       let tar_file := fresh "tar_file" in
       destruct (result_of (receive_payload W (protocol.projectName ws_config)
                              (protocol.length metadata)
                              (state_of (receive_control W s))))
         as [[received tar_file] | e];
       [ destruct (result_of (extract_archive W (protocol.projectName ws_config)
                                (mkdtemp W) tar_file _)) as [[] | e];
         [| destruct (archive_fault e) ]
       | ] ]
  | destruct (contract_fault e) ];
  cbn [trace_of result_of state_of fst snd].

Lemma scratch_calls_app t1 t2 :
  scratch_calls (t1 ++ t2) = scratch_calls t1 ++ scratch_calls t2.
Proof. apply filter_app. Qed.

Lemma scratch_calls_none t : Forall not_scratch t -> scratch_calls t = [].
Proof.
  induction 1 as [| ev t Hev _ IH]; [reflexivity|].
  destruct ev; cbn in *; auto; contradiction.
Qed.

Lemma receive_control_not_scratch (W : World) :
  emits_only not_scratch (receive_control W).
Proof. unfold receive_control. emits_all. Qed.

Lemma ingest_and_scan_not_scratch (W : World) plogger tmp_dir metadata ws_config :
  emits_only not_scratch (ingest_and_scan W plogger tmp_dir metadata ws_config).
Proof.
  unfold ingest_and_scan, extract_archive, extract_layer, scan_and_respond.
  emits_all.
Qed.

(** The scratch directory is created at most once, and a session that
    creates it removes it as its very last call, however it ends. *)
Theorem scratch_always_cleaned (W : World) (s : state W) :
  let t := trace_of (on_websocket W s) in
  scratch_calls t = []
  \/ (scratch_calls t = [TmpDirCreate (mkdtemp W); TmpDirCleanup (mkdtemp W)]
      /\ exists before, t = before ++ [TmpDirCleanup (mkdtemp W)]).
Proof.
  cbv zeta.
  pose proof (receive_control_not_scratch W s) as Hrc.
  apply scratch_calls_none in Hrc.
  rewrite (on_websocket_run W s). cbv zeta.
  destruct (result_of (receive_control W s)) as [[metadata ws_config] | e].
  - rewrite session_run.
    destruct (protocol.chunkSize metadata >? protocol.length metadata);
      cbv zeta; cbn [trace_of fst].
    + left. rewrite !scratch_calls_app, Hrc. reflexivity.
    + right.
      pose proof (ingest_and_scan_not_scratch W (protocol.projectName ws_config)
                    (mkdtemp W) metadata ws_config (state_of (receive_control W s)))
        as Hbody.
      apply scratch_calls_none in Hbody.
      split.
      * rewrite !scratch_calls_app, Hrc. cbn [scratch_calls filter app].
        fold (scratch_calls
                (trace_of (ingest_and_scan W (protocol.projectName ws_config)
                             (mkdtemp W) metadata ws_config
                             (state_of (receive_control W s)))
                 ++ [TmpDirCleanup (mkdtemp W)])).
        rewrite scratch_calls_app, Hbody. reflexivity.
      * eexists. rewrite !app_assoc. rewrite app_comm_cons. rewrite !app_assoc.
        reflexivity.
  - destruct (contract_fault e); cbn [trace_of fst]; left;
      rewrite !scratch_calls_app, Hrc; reflexivity.
Qed.

Lemma closes_app t1 t2 : closes (t1 ++ t2) = closes t1 ++ closes t2.
Proof. apply flat_map_app. Qed.

Lemma sent_app t1 t2 : sent (t1 ++ t2) = sent t1 ++ sent t2.
Proof. apply flat_map_app. Qed.

Lemma quiet_closes t : Forall quiet t -> closes t = [].
Proof.
  induction 1 as [| ev t Hev _ IH]; [reflexivity|].
  destruct ev; cbn in *; auto; contradiction.
Qed.

Lemma quiet_sent t : Forall quiet t -> sent t = [].
Proof.
  induction 1 as [| ev t Hev _ IH]; [reflexivity|].
  destruct ev; cbn in *; auto; contradiction.
Qed.

Lemma housekeeping_quiet ev : housekeeping ev -> quiet ev.
Proof. destruct ev; cbn; auto. Qed.

Lemma receive_control_quiet (W : World) : emits_only quiet (receive_control W).
Proof. unfold receive_control. emits_all. Qed.

Lemma receive_payload_quiet (W : World) plogger len :
  emits_only quiet (receive_payload W plogger len).
Proof. apply emits_receive_payload; intros; exact I. Qed.

Lemma extract_archive_quiet (W : World) plogger tmp_dir tar_file :
  emits_only quiet (extract_archive W plogger tmp_dir tar_file).
Proof. unfold extract_archive, extract_layer. emits_all. Qed.

Lemma sent_answers (n : nat) (a b : string) :
  sent (map WsSendText (firstn n [a; b])) = firstn n [a; b].
Proof. destruct n as [| [| n]]; cbn; rewrite ?firstn_nil; reflexivity. Qed.

(** The scan step closes nothing and sends the two answers as far as the
    peer takes them: both and it ends normally, only the first and it ends
    with the disconnect, or none. *)
Lemma scan_and_respond_outcome (W : World) plogger tmp_dir ws_config (s : state W) :
  let sc := scan_and_respond W plogger tmp_dir ws_config s in
  closes (trace_of sc) = []
  /\ (sent (trace_of sc) = []
      \/ (exists code,
            sent (trace_of sc) = [code]
            /\ result_of sc = Raise WebSocketDisconnected
            /\ listening (state_of sc) = 0%nat)
      \/ (exists code payload,
            sent (trace_of sc) = [code; payload] /\ result_of sc = Ok tt)).
Proof.
  cbv zeta. unfold scan_and_respond. run.
  pose proof (hardlink_housekeeping W tmp_dir s) as Hagent.
  apply (Forall_impl _ housekeeping_quiet) in Hagent.
  rewrite !closes_app, !sent_app.
  rewrite (quiet_closes _ Hagent), (quiet_sent _ Hagent). cbn [app closes sent flat_map].
  destruct (result_of (get_wss_agent_hardlink W tmp_dir s)) as [link | e];
    [| cbn; auto].
  run.
  pose proof (scan_component_housekeeping W tmp_dir tmp_dir ws_config plogger
                (state_of (get_wss_agent_hardlink W tmp_dir s))) as Hscan.
  apply (Forall_impl _ housekeeping_quiet) in Hscan.
  rewrite !closes_app, !sent_app.
  rewrite (quiet_closes _ Hscan), (quiet_sent _ Hscan). cbn [app].
  destruct (result_of (_scan_component W tmp_dir tmp_dir ws_config plogger _))
    as [result | e]; [| cbn; auto].
  run. cbn [app closes sent flat_map].
  set (st := state_of (_scan_component W tmp_dir tmp_dir ws_config plogger
                         (state_of (get_wss_agent_hardlink W tmp_dir s)))).
  destruct (output_decodes result) eqn:Hdec.
  - rewrite (respond_run W result st Hdec).
    cbn [trace_of result_of state_of fst snd]. unfold answers.
    destruct (listening st) as [| [| n]]; cbn; rewrite ?firstn_nil; cbn.
    + auto.
    + split; [reflexivity|]. right. left. eexists. repeat split; reflexivity.
    + split; [reflexivity|]. right. right. eexists. eexists. split; reflexivity.
  - rewrite (respond_undecodable W result st Hdec). cbn. auto.
Qed.

Lemma closes_cons ev t :
  closes (ev :: t) =
  match ev with
  | WsClose code => code :: closes t
  | _ => closes t
  end.
Proof. destruct ev; reflexivity. Qed.

Lemma sent_cons ev t :
  sent (ev :: t) =
  match ev with
  | WsSendText payload => payload :: sent t
  | _ => sent t
  end.
Proof. destruct ev; reflexivity. Qed.

(** Reads the closes and the answers off a trace made of known parts. *)
Ltac readings :=
  repeat first
    [ rewrite closes_app | rewrite sent_app
    | rewrite closes_cons | rewrite sent_cons
    | match goal with
      | H : Forall quiet ?t |- context [closes ?t] => rewrite (quiet_closes t H)
      | H : Forall quiet ?t |- context [sent ?t] => rewrite (quiet_sent t H)
      end ];
  change (closes []) with (@nil StatusCode);
  change (sent []) with (@nil string);
  cbn [app].

(** A session closes with a code at most once and sends at most two text
    messages, and never does both; when it closes or sends anything, the
    handler returns normally, also when the peer is gone before the second
    message. *)
Theorem close_or_answer (W : World) (s : state W) :
  let run := on_websocket W s in
  let t := trace_of run in
  (closes t = [] /\ sent t = [])
  \/ (exists code, closes t = [code] /\ sent t = [] /\ result_of run = Ok tt)
  \/ (exists code,
        closes t = [] /\ sent t = [code] /\ result_of run = Ok tt
        /\ listening (state_of run) = 0%nat)
  \/ (exists code payload,
        closes t = [] /\ sent t = [code; payload] /\ result_of run = Ok tt).
Proof.
  cbv zeta.
  pose proof (receive_control_quiet W s) as Hrc.
  session_cases W s;
    try (pose proof (receive_payload_quiet W (protocol.projectName ws_config)
                       (protocol.length metadata) (state_of (receive_control W s)))
          as Hrp);
    try match goal with
        | |- context [trace_of (extract_archive ?W ?p ?d ?f ?st)] =>
            pose proof (extract_archive_quiet W p d f st) as Hex
        end.
  - readings. right. left. exists protocol.CHUNK_SIZE_TOO_BIG. auto.
  - match goal with
    | |- context [scan_and_respond ?W ?p ?d ?c ?st] =>
        destruct (scan_and_respond_outcome W p d c st)
          as (Hcl & [Hs | [(code & Hs & Hres & Hgone)
                          | (code & payload & Hs & Hres)]])
    end; readings; rewrite Hcl, Hs; cbn [app]; [left; auto | |].
    + right. right. left. exists code. rewrite Hres. auto.
    + right. right. right. exists code, payload. rewrite Hres. auto.
  - readings. right. left. exists protocol.BINARY_CORRUPTED. auto.
  - readings. left. auto.
  - readings. left. auto.
  - readings. right. left. exists protocol.CONTRACT_VIOLATION. auto.
  - readings. left. auto.
Qed.

Lemma receive_control_not_extract (W : World) :
  emits_only not_extract (receive_control W).
Proof. unfold receive_control. emits_all. Qed.

Lemma receive_payload_not_extract (W : World) plogger len :
  emits_only not_extract (receive_payload W plogger len).
Proof. apply emits_receive_payload; intros; exact I. Qed.

Lemma extract_archive_not_staging (W : World) plogger tmp_dir tar_file :
  emits_only not_staging (extract_archive W plogger tmp_dir tar_file).
Proof. unfold extract_archive, extract_layer. emits_all. Qed.

Lemma scan_and_respond_not_staging (W : World) plogger tmp_dir ws_config :
  emits_only not_staging (scan_and_respond W plogger tmp_dir ws_config).
Proof. unfold scan_and_respond. emits; exact I. Qed.

Lemma ingest_and_scan_split (W : World) plogger tmp_dir metadata ws_config
    (s : state W) :
  exists staging rest,
    trace_of (ingest_and_scan W plogger tmp_dir metadata ws_config s) = staging ++ rest
    /\ Forall not_extract staging
    /\ Forall not_staging rest.
Proof.
  rewrite ingest_and_scan_run. cbv zeta.
  pose proof (receive_payload_not_extract W plogger (protocol.length metadata) s) as Hrp.
  set (rp := receive_payload W plogger (protocol.length metadata) s) in *.
  destruct (result_of rp) as [[received tar_file] | e].
  - pose proof (extract_archive_not_staging W plogger tmp_dir tar_file (state_of rp))
      as Hex.
    set (ex := extract_archive W plogger tmp_dir tar_file (state_of rp)) in *.
    exists ((LogInfo plogger "transfer start" :: trace_of rp)
            ++ [LogProgress plogger received (protocol.length metadata);
                LogInfo plogger "transfer done"]).
    destruct (result_of ex) as [[] | e]; [| destruct (archive_fault e)];
      cbn [trace_of fst].
    + pose proof (scan_and_respond_not_staging W plogger tmp_dir ws_config (state_of ex))
        as Hsc.
      exists (trace_of ex ++ trace_of (scan_and_respond W plogger tmp_dir ws_config
                                         (state_of ex))).
      split; [| split].
      * rewrite <- !app_assoc. reflexivity.
      * rewrite Forall_app. split; repeat constructor; auto.
      * rewrite Forall_app. split; auto.
    + exists (trace_of ex ++ [WsClose protocol.BINARY_CORRUPTED]).
      split; [| split].
      * rewrite <- !app_assoc. reflexivity.
      * rewrite Forall_app. split; repeat constructor; auto.
      * rewrite Forall_app. split; repeat constructor; auto.
    + exists (trace_of ex).
      split; [| split].
      * rewrite <- !app_assoc. reflexivity.
      * rewrite Forall_app. split; repeat constructor; auto.
      * exact Hex.
  - exists (LogInfo plogger "transfer start" :: trace_of rp), [].
    cbn [trace_of fst]. rewrite app_nil_r.
    split; [reflexivity|]. split; repeat constructor; auto.
Qed.

(** The payload is staged in full before anything is extracted: the calls
    of a session split into a first part without any [extract] call and a
    second part that neither receives from the connection nor writes to
    the staging file. *)
Theorem staging_precedes_extraction (W : World) (s : state W) :
  exists staging rest,
    trace_of (on_websocket W s) = staging ++ rest
    /\ Forall not_extract staging
    /\ Forall not_staging rest.
Proof.
  pose proof (receive_control_not_extract W s) as Hrc.
  rewrite (on_websocket_run W s). cbv zeta.
  destruct (result_of (receive_control W s)) as [[metadata ws_config] | e].
  - rewrite session_run.
    destruct (protocol.chunkSize metadata >? protocol.length metadata);
      cbv zeta; cbn [trace_of fst].
    + eexists. exists []. rewrite app_nil_r. split; [reflexivity|].
      split; [| constructor].
      rewrite !Forall_app. repeat split; auto; repeat constructor.
    + destruct (ingest_and_scan_split W (protocol.projectName ws_config) (mkdtemp W)
                  metadata ws_config (state_of (receive_control W s)))
        as (staging & rest & Heq & Hst & Hrest).
      rewrite Heq.
      exists (([WsAccept; LogInfo "component" "receiving metadata..."]
               ++ trace_of (receive_control W s))
              ++ TmpDirCreate (mkdtemp W) :: staging).
      exists (rest ++ [TmpDirCleanup (mkdtemp W)]).
      split; [| split].
      * repeat (cbn [app]; rewrite <- ?app_assoc). reflexivity.
      * rewrite !Forall_app. repeat split; auto; repeat constructor; auto.
      * rewrite Forall_app. split; auto. repeat constructor.
  - destruct (contract_fault e); cbn [trace_of fst];
      (eexists; exists []; rewrite app_nil_r; split; [reflexivity|];
       split; [| constructor];
       rewrite !Forall_app; repeat split; auto; repeat constructor).
Qed.

Lemma not_request_none t : Forall not_request t -> payload_requests t = 0%nat.
Proof.
  unfold payload_requests.
  induction 1 as [| ev t Hev _ IH]; [reflexivity|].
  destruct ev; cbn in *; auto; contradiction.
Qed.

Lemma receive_control_not_request (W : World) :
  emits_only not_request (receive_control W).
Proof. unfold receive_control. emits_all. Qed.

Lemma extract_archive_not_request (W : World) plogger tmp_dir tar_file :
  emits_only not_request (extract_archive W plogger tmp_dir tar_file).
Proof. unfold extract_archive, extract_layer. emits_all. Qed.

Lemma scan_and_respond_not_request (W : World) plogger tmp_dir ws_config :
  emits_only not_request (scan_and_respond W plogger tmp_dir ws_config).
Proof. unfold scan_and_respond. emits; exact I. Qed.

(** What a normal end of the control phase says about the inbox. *)
Lemma receive_control_inv (W : World) (s : state W) metadata ws_config :
  result_of (receive_control W s) = Ok (metadata, ws_config) ->
  exists m c rest,
    inbox s = TextFrame m :: TextFrame c :: rest
    /\ decode_metadata W m = Ok metadata
    /\ decode_config W c = Ok ws_config
    /\ state_of (receive_control W s) = set_inbox rest s.
Proof.
  intros Hok.
  destruct (inbox s) as [| [m | b] rest] eqn:Hin.
  - unfold receive_control, bind, ws_receive_text in Hok. rewrite Hin in Hok.
    discriminate Hok.
  - destruct (decode_metadata W m) as [md | e] eqn:Hm.
    + destruct rest as [| [c | b] rest].
      * unfold receive_control, bind, ws_receive_text, lift, log_info, emit in Hok.
        rewrite Hin, Hm in Hok. discriminate Hok.
      * destruct (decode_config W c) as [cfg | e] eqn:Hc.
        -- rewrite (receive_control_ok W s m c rest md cfg Hin Hm Hc) in *.
           cbn in Hok. inversion Hok; subst. exists m, c, rest. auto.
        -- rewrite (receive_control_bad_config W s m c rest md e Hin Hm Hc) in Hok.
           discriminate Hok.
      * unfold receive_control, bind, ws_receive_text, lift, log_info, emit in Hok.
        rewrite Hin, Hm in Hok. discriminate Hok.
    + rewrite (receive_control_bad_metadata W s m rest e Hin Hm) in Hok.
      discriminate Hok.
  - unfold receive_control, bind, ws_receive_text in Hok. rewrite Hin in Hok.
    discriminate Hok.
Qed.

(** No payload message is ever asked for unless both control messages
    arrived as text and decoded, the declared chunk size does not exceed
    the declared length, and that length is positive. *)
Theorem payload_only_after_checks (W : World) (s : state W) :
  payload_requests (trace_of (on_websocket W s)) <> 0%nat ->
  exists m c rest metadata ws_config,
    inbox s = TextFrame m :: TextFrame c :: rest
    /\ decode_metadata W m = Ok metadata
    /\ decode_config W c = Ok ws_config
    /\ protocol.chunkSize metadata <= protocol.length metadata
    /\ 0 < protocol.length metadata.
Proof.
  intros Hreq.
  pose proof (not_request_none _ (receive_control_not_request W s)) as Hrc.
  rewrite (on_websocket_run W s) in Hreq. cbv zeta in Hreq.
  destruct (result_of (receive_control W s)) as [[metadata ws_config] | e] eqn:Hres.
  - destruct (receive_control_inv W s metadata ws_config Hres)
      as (m & c & rest & Hin & Hm & Hc & _).
    exists m, c, rest, metadata, ws_config.
    repeat (split; [assumption|]).
    rewrite session_run in Hreq.
    destruct (Z.gtb_spec (protocol.chunkSize metadata) (protocol.length metadata))
      as [Hgt | Hle]; cbv zeta in Hreq; cbn [trace_of fst] in Hreq.
    + exfalso. apply Hreq. rewrite !payload_requests_app, Hrc. reflexivity.
    + split; [exact Hle|].
      destruct (Z.lt_ge_cases 0 (protocol.length metadata)) as [Hpos | Hnonpos];
        [exact Hpos|].
      exfalso. apply Hreq.
      rewrite ingest_and_scan_run. cbv zeta.
      rewrite receive_payload_nothing by exact Hnonpos.
      cbn [trace_of result_of state_of fst snd].
      match goal with
      | |- context [extract_archive ?W ?p ?d ?f ?st] =>
          pose proof (not_request_none _ (extract_archive_not_request W p d f st))
            as Hex;
          set (ex := extract_archive W p d f st) in *
      end.
      destruct (result_of ex) as [[] | e]; [| destruct (archive_fault e)];
        cbn [trace_of fst];
        repeat (rewrite payload_requests_app || rewrite app_comm_cons);
        rewrite ?Hrc, ?Hex;
        try rewrite (not_request_none _ (scan_and_respond_not_request W _ _ _ _));
        reflexivity.
  - exfalso. apply Hreq.
    destruct (contract_fault e); cbn [trace_of fst];
      rewrite !payload_requests_app, Hrc; reflexivity.
Qed.







(** * More on extraction *)



Lemma removed_app t1 t2 : removed (t1 ++ t2) = removed t1 ++ removed t2.
Proof. apply flat_map_app. Qed.

Lemma not_remove_none t : Forall not_remove t -> removed t = [].
Proof.
  induction 1 as [| ev t Hev _ IH]; [reflexivity|].
  destruct ev; cbn in *; auto; contradiction.
Qed.

Lemma extract_members_not_remove (W : World) path f :
  emits_only not_remove (extract_members W path f).
Proof. apply emits_extract_members. intros; exact I. Qed.

(** A round of the loop over the listing that ends normally has removed
    the file exactly when its name ends in [.tar]. *)
Lemma extract_layer_removed (W : World) plogger tmp_dir file (s : state W) :
  result_of (extract_layer W plogger tmp_dir file s) = Ok tt ->
  removed (trace_of (extract_layer W plogger tmp_dir file s)) =
  if Py.endswith file ".tar" then [Py.path_join tmp_dir file] else [].
Proof.
  unfold extract_layer. destruct (Py.endswith file ".tar"); [| reflexivity].
  unfold tarfile_open, os_remove. run.
  destruct (fs_read W (Py.path_join tmp_dir file) (disk s)) as [content | e];
    run; [| discriminate].
  destruct (tar_open W content) as [f | e]; run; [| discriminate].
  rewrite !removed_app.
  rewrite (not_remove_none _ (extract_members_not_remove W _ f s)).
  destruct (result_of (extract_members W _ f s)) as [[] | []]; run;
    intros H; try discriminate H; reflexivity.
Qed.

Lemma for_each_layers_removed (W : World) plogger tmp_dir (files : list string) :
  forall s : state W,
    result_of (for_each files (extract_layer W plogger tmp_dir) s) = Ok tt ->
    removed (trace_of (for_each files (extract_layer W plogger tmp_dir) s)) =
    map (Py.path_join tmp_dir) (layer_files files).
Proof.
  induction files as [| file files IH]; intros s; cbn [for_each layer_files filter].
  - reflexivity.
  - run. intros Hok.
    destruct (result_of (extract_layer W plogger tmp_dir file s)) as [[] |] eqn:Hlayer;
      [| discriminate Hok].
    rewrite removed_app, (extract_layer_removed W plogger tmp_dir file s Hlayer).
    rewrite (IH _ Hok). fold (layer_files files).
    destruct (Py.endswith file ".tar"); reflexivity.
Qed.

(** When the extraction ends normally, the files removed from the scratch
    directory are exactly the entries of its listing, taken after the
    outer pass, whose names end in [.tar], each once and in listing order;
    no other entry is removed. *)
Theorem layers_removed (W : World) (plogger tmp_dir : string)
    (tar_file : list byte) (f : list tar_step) (s : state W) :
  tar_open W tar_file = Ok f ->
  let run := extract_archive W plogger tmp_dir tar_file s in
  let listing := fs_listdir W tmp_dir (disk (state_of (extract_members W tmp_dir f s))) in
  result_of run = Ok tt ->
  removed (trace_of run) = map (Py.path_join tmp_dir) (layer_files listing).
Proof.
  intros Hopen run listing. subst run listing. unfold extract_archive. run.
  rewrite Hopen. run.
  destruct (result_of (extract_members W tmp_dir f s)) as [[] | e]; run;
    [| discriminate].
  intros Hok. rewrite !removed_app.
  rewrite (not_remove_none _ (extract_members_not_remove W tmp_dir f s)).
  cbn [removed flat_map app].
  apply for_each_layers_removed. exact Hok.
Qed.


(** A layer whose file name is a stem without [.tar] followed by the
    suffix is recognised as a layer and extracted into the scratch
    directory joined with the stem; when the stem is a relative name
    without [..] that directory lies inside the scratch directory. *)
Theorem plain_layer_directory (tmp_dir stem : string) :
  occurs ".tar" stem = false ->
  Py.endswith (stem ++ ".tar") ".tar" = true
  /\ layer_dir tmp_dir (stem ++ ".tar") = Py.path_join tmp_dir stem
  /\ (safe_name stem = true ->
      inside tmp_dir (layer_dir tmp_dir (stem ++ ".tar")) = true).
Proof.
  intros Hocc. split; [| split].
  - clear Hocc. induction stem as [| ch stem IH]; [reflexivity|].
    cbn [String.append Py.endswith]. rewrite IH. apply orb_true_r.
  - unfold layer_dir. rewrite replace_strips_suffix by exact Hocc. reflexivity.
  - intros Hsafe. unfold layer_dir.
    rewrite replace_strips_suffix by exact Hocc.
    apply safe_join_inside. exact Hsafe.
Qed.

(** * More on the scan step and the agent cache *)




Lemma update_absent_run (W : World) (s : state W) :
  agent_mtime s = None ->
  update_or_download_agent W s =
  let pull := pull_latest_wss_agent W (wss_agent_path W) s in
  (LogInfo "util" "wss agent not found on file system. Pulling it now..."
   :: trace_of pull,
   result_of pull, state_of pull).
Proof.
  intros Habs. destruct (update_absent W s Habs) as (Htr & Hres & Hst).
  rewrite (run_eta (update_or_download_agent W s)), Htr, Hres, Hst. reflexivity.
Qed.

(** [pull_latest_wss_agent] returns only when the download and the move
    both succeeded: it has then moved the download to the path it was
    given, logged no error and left the temporary file to the move; moved
    to [paths.wss_agent_path] the download gives the canonical file its
    time, moved elsewhere it leaves the canonical file alone. Whatever
    fails is logged once and masked by the [except] clause: the exception
    raised is [RuntimeError], after the temporary file is unlinked, or the
    [AttributeError] of [tmp_file.name] when the temporary file could not
    be created and there is nothing to unlink; it is never the [HTTPError]
    that [update_or_download_agent] names in its [except] clause, nor a
    disconnect. A move is called at most once, and only after the
    download. *)
Theorem pull_masks_failure (W : World) (path : string) (s : state W) :
  let run := pull_latest_wss_agent W path s in
  (moves (trace_of run) = []
   \/ moves (trace_of run) = [path] /\ downloads (trace_of run) = [ws_agent_url])
  /\ match result_of run with
     | Ok _ =>
         fetch W = Fetched
         /\ moves (trace_of run) = [path]
         /\ errors (trace_of run) = []
         /\ unlinks (trace_of run) = []
         /\ (path = wss_agent_path W -> agent_mtime (state_of run) = Some (clock W))
         /\ (path <> wss_agent_path W -> state_of run = s)
     | Raise e =>
         errors (trace_of run) = ["an error occured while pulling ws agent"]%string
         /\ e <> HTTPError
         /\ e <> WebSocketDisconnected
         /\ (fetch W = TmpFileFailed
             /\ e = AttributeError
             /\ unlinks (trace_of run) = []
             /\ downloads (trace_of run) = []
             \/ fetch W <> TmpFileFailed
                /\ e = RuntimeError "error pulling wss agent"
                /\ unlinks (trace_of run) = [mkstemp W]
                /\ downloads (trace_of run) = [ws_agent_url])
     end.
Proof.
  cbv zeta. rewrite pull_latest_wss_agent_run.
  destruct (fetch W) eqn:Hfetch; cbn [trace_of result_of state_of fst snd].
  - (* the download is moved into place *)
    split; [right; split; reflexivity|].
    repeat split; try reflexivity.
    + intros ->. rewrite moved_to_canonical. reflexivity.
    + intros Hother. unfold moved_to.
      destruct (String.eqb_spec path (wss_agent_path W)); [contradiction | reflexivity].
  - (* no temporary file *)
    split; [left; reflexivity|].
    split; [reflexivity|]. split; [discriminate|]. split; [discriminate|].
    left. repeat split.
  - (* the request or the copy fails *)
    split; [left; reflexivity|].
    split; [reflexivity|]. split; [discriminate|]. split; [discriminate|].
    right. repeat split. discriminate.
  - (* the move fails *)
    split; [right; split; reflexivity|].
    split; [reflexivity|]. split; [discriminate|]. split; [discriminate|].
    right. repeat split. discriminate.
Qed.

(** The ways [get_wss_agent_hardlink] can end. *)
Lemma hardlink_cases (W : World) (tmp_dir : string) (s : state W) :
  let run := get_wss_agent_hardlink W tmp_dir s in
  let link := Py.path_join tmp_dir (wss_agent_name W) in
  match result_of run with
  | Ok path =>
      path = link
      /\ links (trace_of run) = [(wss_agent_path W, link)]
      /\ unlinks (trace_of run) = []
      /\ agent_mtime (state_of run) <> None
      /\ fs_exists W link (disk s) = false
  | Raise e =>
      links (trace_of run) = []
      /\ (agent_mtime s = None
          /\ pull_failure (fetch W) = Some e
          /\ state_of run = s
          \/ e = OtherError "FileExistsError"
             /\ fs_exists W link (disk s) = true
             /\ unlinks (trace_of run) = []
             /\ agent_mtime (state_of run) <> None
          \/ link_fault W (wss_agent_path W) link = Some e
             /\ fs_exists W link (disk s) = false
             /\ unlinks (trace_of run) = []
             /\ agent_mtime (state_of run) <> None)
  end.
Proof.
  cbv zeta.
  rewrite (run_eta (get_wss_agent_hardlink W tmp_dir s)).
  unfold get_wss_agent_hardlink, os_link_agent. run.
  destruct (agent_mtime s) as [modification_date |] eqn:Hagent.
  - rewrite (update_present W s modification_date Hagent).
    destruct (modification_date <? clock W - max_age); run; rewrite Hagent;
      destruct (fs_exists W (Py.path_join tmp_dir (wss_agent_name W)) (disk s));
      [ run; cbn; split; [reflexivity|]; right; left; repeat split; congruence
      | destruct (link_fault W (wss_agent_path W)
                    (Py.path_join tmp_dir (wss_agent_name W))) eqn:Hlink;
        run; cbn;
        [ split; [reflexivity|]; right; right; repeat split; congruence
        | repeat split; congruence ]
      | run; cbn; split; [reflexivity|]; right; left; repeat split; congruence
      | destruct (link_fault W (wss_agent_path W)
                    (Py.path_join tmp_dir (wss_agent_name W))) eqn:Hlink;
        run; cbn;
        [ split; [reflexivity|]; right; right; repeat split; congruence
        | repeat split; congruence ] ].
  - rewrite (update_absent_run W s Hagent). cbv zeta.
    rewrite pull_latest_wss_agent_run.
    destruct (fetch W); run; cbn; rewrite ?moved_to_canonical; cbn;
      try (split; [reflexivity | left; repeat split; reflexivity]).
    destruct (fs_exists W (Py.path_join tmp_dir (wss_agent_name W)) (disk s));
      [ run; cbn; split; [reflexivity|]; right; left; repeat split; discriminate
      | destruct (link_fault W (wss_agent_path W)
                    (Py.path_join tmp_dir (wss_agent_name W))) eqn:Hlink;
        run; cbn;
        [ split; [reflexivity|]; right; right; repeat split; discriminate
        | repeat split; discriminate ] ].
Qed.


Lemma links_app t1 t2 : links (t1 ++ t2) = links t1 ++ links t2.
Proof. apply flat_map_app. Qed.

Lemma unlinks_app t1 t2 : unlinks (t1 ++ t2) = unlinks t1 ++ unlinks t2.
Proof. apply flat_map_app. Qed.

Lemma not_link_links t : Forall not_link t -> links t = [].
Proof.
  induction 1 as [| ev t Hev _ IH]; [reflexivity|].
  destruct ev; cbn in *; auto; contradiction.
Qed.

Lemma not_link_unlinks t : Forall not_link t -> unlinks t = [].
Proof.
  induction 1 as [| ev t Hev _ IH]; [reflexivity|].
  destruct ev; cbn in *; auto; contradiction.
Qed.

Lemma scan_component_not_link (W : World) dir path ws_config plogger :
  emits_only not_link (_scan_component W dir path ws_config plogger).
Proof.
  unfold _scan_component, generate_config, _add_configuration, run_whitesource_scan.
  emits; exact I.
Qed.

Lemma respond_not_link (W : World) result : emits_only not_link (respond W result).
Proof. unfold respond. emits; exact I. Qed.

(** The life of the session's hard link to the agent. When the link
    cannot be obtained, which is the case whenever the scratch directory
    already holds an entry of the agent's name, the scan step stops there:
    it raises, makes no link, runs nothing and sends nothing. Otherwise
    exactly one link is made, from the canonical file to the scratch
    directory; it is unlinked, once, when the agent's run returns, and it
    is left in place (for the scratch cleanup to remove) when the run
    cannot be started, in which case the scan step raises and nothing is
    sent. *)
Theorem link_lifecycle (W : World) (plogger tmp_dir : string)
    (ws_config : WSConfig) (s : state W) :
  let sc := scan_and_respond W plogger tmp_dir ws_config s in
  let link := Py.path_join tmp_dir (wss_agent_name W) in
  let agent := get_wss_agent_hardlink W tmp_dir s in
  let scan := _scan_component W tmp_dir tmp_dir ws_config plogger (state_of agent) in
  (fs_exists W link (disk s) = true -> exists e, result_of agent = Raise e)
  /\ match result_of agent with
     | Raise e =>
         trace_of sc = LogInfo plogger "scan start" :: trace_of agent
         /\ links (trace_of sc) = []
         /\ sent (trace_of sc) = []
         /\ result_of sc = Raise e
     | Ok _ =>
         links (trace_of sc) = [(wss_agent_path W, link)]
         /\ match result_of scan with
            | Ok _ => unlinks (trace_of sc) = [link]
            | Raise e =>
                unlinks (trace_of sc) = []
                /\ sent (trace_of sc) = []
                /\ result_of sc = Raise e
            end
     end.
Proof.
  cbv zeta.
  pose proof (hardlink_cases W tmp_dir s) as Hagent. cbv zeta in Hagent.
  pose proof (hardlink_housekeeping W tmp_dir s) as Hquiet0.
  apply (Forall_impl _ housekeeping_quiet) in Hquiet0.
  unfold scan_and_respond. run.
  destruct (result_of (get_wss_agent_hardlink W tmp_dir s)) as [path | e].
  - destruct Hagent as (-> & Hlinks & Hunlinks & _ & Hfree).
    split; [rewrite Hfree; discriminate|]. run.
    pose proof (scan_component_not_link W tmp_dir tmp_dir ws_config plogger
                  (state_of (get_wss_agent_hardlink W tmp_dir s))) as Hscan.
    pose proof (scan_component_housekeeping W tmp_dir tmp_dir ws_config plogger
                  (state_of (get_wss_agent_hardlink W tmp_dir s))) as Hquiet.
    apply (Forall_impl _ housekeeping_quiet) in Hquiet.
    set (scan := _scan_component W tmp_dir tmp_dir ws_config plogger
                   (state_of (get_wss_agent_hardlink W tmp_dir s))) in *.
    destruct (result_of scan) as [result | e]; run.
    + pose proof (respond_not_link W result (state_of scan)) as Hresp.
      rewrite !links_app, !unlinks_app.
      rewrite Hlinks, Hunlinks.
      rewrite (not_link_links _ Hscan), (not_link_unlinks _ Hscan).
      rewrite (not_link_links _ Hresp), (not_link_unlinks _ Hresp).
      cbn. auto.
    + rewrite !links_app, !unlinks_app, !sent_app.
      rewrite Hlinks, Hunlinks.
      rewrite (not_link_links _ Hscan), (not_link_unlinks _ Hscan).
      rewrite (quiet_sent _ Hquiet), (quiet_sent _ Hquiet0).
      cbn. auto.
  - destruct Hagent as (Hlinks & _).
    split; [intros _; exists e; reflexivity|].
    rewrite !links_app, !sent_app, Hlinks, (quiet_sent _ Hquiet0), app_nil_r.
    cbn. auto.
Qed.

(** Once a download has succeeded the agent is fresh: a later call of
    [update_or_download_agent], whether it follows the background refresh
    of a stale file or the blocking download of a missing one, only logs
    that the agent is up to date; it downloads nothing and starts no
    thread. *)
Theorem fresh_after_download (W : World) (s : state W) :
  fetch W = Fetched ->
  let refreshed := state_of (thread_run W (PullLatest (wss_agent_path W)) s) in
  let again := update_or_download_agent W refreshed in
  agent_mtime refreshed = Some (clock W)
  /\ result_of again = Ok tt
  /\ downloads (trace_of again) = []
  /\ threads (trace_of again) = []
  /\ state_of again = refreshed
  /\ (agent_mtime s = None ->
      state_of (update_or_download_agent W s) = refreshed).
Proof.
  intros Hfetch. cbv zeta.
  assert (Hst : state_of (thread_run W (PullLatest (wss_agent_path W)) s)
                = set_agent_mtime (Some (clock W)) s).
  { unfold thread_run. run. rewrite pull_latest_wss_agent_run, Hfetch.
    apply moved_to_canonical. }
  rewrite Hst.
  rewrite (update_present W (set_agent_mtime (Some (clock W)) s) (clock W) eq_refl).
  assert (Hfresh : (clock W <? clock W - max_age) = false).
  { apply Z.ltb_ge. unfold max_age. lia. }
  rewrite Hfresh. cbn [trace_of result_of state_of fst snd].
  repeat split.
  intros Habs. rewrite (update_absent_run W s Habs). cbv zeta.
  rewrite pull_latest_wss_agent_run, Hfetch. apply moved_to_canonical.
Qed.

(** A failed download is never swallowed by [update_or_download_agent]:
    whenever it returns normally with the file absent beforehand, the
    download succeeded and was moved into place. Its [except] branch for
    [HTTPError] is never taken: the only error it ever logs is the one
    [pull_latest_wss_agent] logs before raising. *)
Theorem failed_download_not_swallowed (W : World) (s : state W) :
  let run := update_or_download_agent W s in
  (agent_mtime s = None ->
   result_of run = Ok tt ->
   fetch W = Fetched /\ moves (trace_of run) = [wss_agent_path W])
  /\ (errors (trace_of run) = []
      \/ errors (trace_of run) = ["an error occured while pulling ws agent"]%string
         /\ result_of run <> Ok tt).
Proof.
  cbv zeta. destruct (agent_mtime s) as [modification_date |] eqn:Hagent.
  - split; [discriminate|]. left.
    rewrite (update_present W s modification_date Hagent).
    destruct (modification_date <? clock W - max_age); reflexivity.
  - rewrite (update_absent_run W s Hagent).
    cbv zeta. rewrite pull_latest_wss_agent_run.
    destruct (fetch W); cbn.
    + split; [auto | left; reflexivity].
    + split; [intros _ H; discriminate H|].
      right. split; [reflexivity | discriminate].
    + split; [intros _ H; discriminate H|].
      right. split; [reflexivity | discriminate].
    + split; [intros _ H; discriminate H|].
      right. split; [reflexivity | discriminate].
Qed.

(** * util.py: formatting helpers *)

(** Settles the case where the loop returns after [k] divisions. *)
Ltac returns_at k u :=
  exists k, u; cbn [negb nth_error scaled];
  split; [lia|];
  split; [reflexivity|];
  split; [first [left; reflexivity | right; cbn; lia]|];
  split; [cbn; lia|];
  split; [reflexivity|];
  unfold Qeq; cbn; lia.

(** [sizeof_fmt] on an integer of magnitude at most 2^53, the range in
    which the float arithmetic of the code is exact: it divides by 1024
    until the magnitude is below 1024, so it prints the value scaled by
    1024^k under the k-th unit, where k is the one index with
    1024^k <= |num| < 1024^(k+1) (k = 0 below 1024); k is at most 5, the
    unit Pi. *)
Theorem sizeof_fmt_unit (format_3_1f format_1f : Q -> string) (num : Z)
    (suffix : string) :
  Z.abs num <= 2 ^ 53 ->
  exists (k : nat) (unit : string),
    (k <= 5)%nat
    /\ nth_error units k = Some unit
    /\ (k = 0%nat \/ 1024 ^ Z.of_nat k <= Z.abs num)
    /\ Z.abs num < 1024 ^ (Z.of_nat k + 1)
    /\ sizeof_fmt format_3_1f format_1f num suffix
       = (format_3_1f (scaled (inject_Z num) k) ++ unit ++ suffix)%string
    /\ (scaled (inject_Z num) k == inject_Z num / inject_Z (1024 ^ Z.of_nat k))%Q.
Proof.
  intros Hexact. unfold sizeof_fmt, units. cbn [sizeof_units].
  unfold Qltb, Qle_bool. cbn.
  assert (H53 : 2 ^ 53 = 9007199254740992) by reflexivity. rewrite H53 in Hexact.
  destruct (Z.leb_spec 1024 (Z.abs num * 1)); [| returns_at 0%nat ""%string].
  destruct (Z.leb_spec 1048576 (Z.abs (num * 1) * 1)); [| returns_at 1%nat "Ki"%string].
  destruct (Z.leb_spec 1073741824 (Z.abs (num * 1 * 1) * 1));
    [| returns_at 2%nat "Mi"%string].
  destruct (Z.leb_spec 1099511627776 (Z.abs (num * 1 * 1 * 1) * 1));
    [| returns_at 3%nat "Gi"%string].
  destruct (Z.leb_spec 1125899906842624 (Z.abs (num * 1 * 1 * 1 * 1) * 1));
    [| returns_at 4%nat "Ti"%string].
  destruct (Z.leb_spec 1152921504606846976 (Z.abs (num * 1 * 1 * 1 * 1 * 1) * 1));
    [lia | returns_at 5%nat "Pi"%string].
Qed.

(** * The further theorems at concrete sessions *)

Section MoreConcrete.
Import Scenario Scenario2.

(** The well-formed upload asks for its two chunks: its control messages
    decoded and its declared sizes passed the check. *)
Lemma payload_only_after_checks_witness :
  payload_requests (trace_of (on_websocket W_ok s_ok)) = 2%nat
  /\ exists m c rest metadata ws_config,
       inbox s_ok = TextFrame m :: TextFrame c :: rest
       /\ decode_metadata W_ok m = Ok metadata
       /\ decode_config W_ok c = Ok ws_config
       /\ protocol.chunkSize metadata <= protocol.length metadata
       /\ 0 < protocol.length metadata.
Proof.
  split; [reflexivity|].
  apply (payload_only_after_checks W_ok s_ok). vm_compute. discriminate.
Defined.


(** Two layers and a loose file: the two layer files are removed. *)
Lemma layers_removed_witness :
  let s := Demo.start W_two_layers [] [] fresh_agent in
  result_of (extract_archive W_two_layers "demo" "/tmp/scratch" (Demo.bytes "OUTER") s)
    = Ok tt
  /\ removed (trace_of (extract_archive W_two_layers "demo" "/tmp/scratch"
                          (Demo.bytes "OUTER") s))
     = ["/tmp/scratch/layerA.tar"; "/tmp/scratch/layerB.tar"]%string.
Proof.
  cbv zeta. split; [reflexivity|].
  rewrite (layers_removed W_two_layers "demo" "/tmp/scratch" (Demo.bytes "OUTER")
             [Member (Demo.file "layerB.tar" "INNER2") None;
              Member (Demo.file "README" "hello") None;
              Member (Demo.file "layerA.tar" "INNER") None]
             (Demo.start W_two_layers [] [] fresh_agent) eq_refl eq_refl).
  reflexivity.
Defined.


(** The layer [layerA.tar]. *)
Lemma plain_layer_directory_witness :
  occurs ".tar" "layerA" = false
  /\ layer_dir "/tmp/scratch" "layerA.tar" = "/tmp/scratch/layerA"%string
  /\ inside "/tmp/scratch" (layer_dir "/tmp/scratch" "layerA.tar") = true.
Proof.
  split; [reflexivity|].
  destruct (plain_layer_directory "/tmp/scratch" "layerA" eq_refl)
    as (_ & Hdir & Hinside).
  split; [exact Hdir | apply Hinside; reflexivity].
Defined.

(** A layer whose second member is a link with a missing target. *)
Lemma extract_layer_run_witness :
  let s := Demo.start W_link [("/tmp/scratch/layerA.tar"%string, Demo.bytes "INNER")]
             [] fresh_agent in
  let run := extract_layer W_link "demo" "/tmp/scratch" "layerA.tar" s in
  trace_of run =
    [ TarExtract (Demo.file "bin/tool" "ELF") "/tmp/scratch/layerA" None;
      TarExtract (Demo.file "bin/alias" "") "/tmp/scratch/layerA" (Some KeyError);
      LogWarn "demo" "linkname not found, skipping";
      OsRemove "/tmp/scratch/layerA.tar" ]
  /\ result_of run = Ok tt.
Proof.
  exact (extract_layer_run W_link "demo" "/tmp/scratch" "layerA.tar"
           [ Member (Demo.file "bin/tool" "ELF") None;
             Member (Demo.file "bin/alias" "") (Some KeyError);
             Member (Demo.file "app/manifest.json" "{}") None ]
           (Demo.start W_link [("/tmp/scratch/layerA.tar"%string, Demo.bytes "INNER")]
              [] fresh_agent)
           eq_refl eq_refl).
Defined.

(** A file 50 hours old, refreshed in the background. *)
Lemma fresh_after_download_witness :
  fetch W_online = Fetched
  /\ trace_of (update_or_download_agent W_online (online (Some (50 * hour))))
     = [ LogInfo "util" "ws agent is older than 24 hours. Agent will be updated...";
         ThreadStart (PullLatest "/agent/wss-unified-agent.jar") ]
  /\ downloads
       (trace_of
          (update_or_download_agent W_online
             (state_of (thread_run W_online (PullLatest "/agent/wss-unified-agent.jar")
                          (online (Some (50 * hour))))))) = []
  /\ threads
       (trace_of
          (update_or_download_agent W_online
             (state_of (thread_run W_online (PullLatest "/agent/wss-unified-agent.jar")
                          (online (Some (50 * hour))))))) = [].
Proof.
  split; [reflexivity|]. split; [reflexivity|].
  destruct (fresh_after_download W_online (online (Some (50 * hour))) eq_refl)
    as (_ & _ & Hdown & Hthreads & _).
  split; [exact Hdown | exact Hthreads].
Defined.

(** 5 MiB and 1536 bytes. *)
Lemma sizeof_fmt_unit_witness :
  Z.abs 5242880 <= 2 ^ 53
  /\ sizeof_fmt (fun _ => "5.0"%string) (fun _ => "?"%string) 5242880 "B" = "5.0MiB"%string
  /\ exists k unit,
       nth_error units k = Some unit
       /\ Z.abs 1536 < 1024 ^ (Z.of_nat k + 1)
       /\ sizeof_fmt (fun _ => "1.5"%string) (fun _ => "?"%string) 1536 "B"
          = ("1.5" ++ unit ++ "B")%string.
Proof.
  assert (H1 : Z.abs 5242880 <= 2 ^ 53) by (vm_compute; discriminate).
  assert (H2 : Z.abs 1536 <= 2 ^ 53) by (vm_compute; discriminate).
  split; [exact H1|]. split; [reflexivity|].
  destruct (sizeof_fmt_unit (fun _ => "1.5"%string) (fun _ => "?"%string) 1536 "B" H2)
    as (k & unit & _ & Hunit & _ & Hbound & Hfmt & _).
  exists k, unit. repeat split; assumption.
Defined.


(** An upload that holds a file named like the agent is never scanned. *)
Lemma link_lifecycle_witness :
  let s :=
    Demo.start W_collision
      [ ("/tmp/scratch/manifest.json"%string, Demo.bytes "{}");
        ("/tmp/scratch/wss-unified-agent.jar"%string, Demo.bytes "not the agent") ]
      [] fresh_agent in
  disk (state_of (on_websocket W_collision s_collision)) = disk s
  /\ fs_exists W_collision "/tmp/scratch/wss-unified-agent.jar" (disk s) = true
  /\ (exists e, result_of (get_wss_agent_hardlink W_collision "/tmp/scratch" s) = Raise e)
  /\ result_of (on_websocket W_collision s_collision)
     = Raise (OtherError "FileExistsError")
  /\ sent (trace_of (on_websocket W_collision s_collision)) = [].
Proof.
  cbv zeta. split; [reflexivity|]. split; [reflexivity|].
  split; [| split; reflexivity].
  exact (proj1 (link_lifecycle W_collision "demo" "/tmp/scratch" Demo.config
                  (Demo.start W_collision
                     [ ("/tmp/scratch/manifest.json"%string, Demo.bytes "{}");
                       ("/tmp/scratch/wss-unified-agent.jar"%string,
                        Demo.bytes "not the agent") ]
                     [] fresh_agent))
           eq_refl).
Defined.

(** The download succeeds and the move into place fails. *)
Lemma pull_masks_failure_witness :
  let run :=
    pull_latest_wss_agent W_move_failed "/agent/wss-unified-agent.jar"
      (Demo.start W_move_failed [] [] None) in
  result_of run = Raise (RuntimeError "error pulling wss agent")
  /\ moves (trace_of run) = ["/agent/wss-unified-agent.jar"]%string
  /\ unlinks (trace_of run) = ["/tmp/download"]%string
  /\ errors (trace_of run) = ["an error occured while pulling ws agent"]%string.
Proof.
  cbv zeta. split; [reflexivity|]. split; [reflexivity|].
  destruct (pull_masks_failure W_move_failed "/agent/wss-unified-agent.jar"
              (Demo.start W_move_failed [] [] None)) as [_ Hend].
  cbv zeta in Hend.
  change (result_of
            (pull_latest_wss_agent W_move_failed "/agent/wss-unified-agent.jar"
               (Demo.start W_move_failed [] [] None)))
    with (@Raise unit (RuntimeError "error pulling wss agent")) in Hend.
  cbv beta iota in Hend.
  destruct Hend as (Herr & _ & _ & [(Habs & _) | (_ & _ & Hunl & _)]);
    [discriminate Habs|].
  split; [exact Hunl | exact Herr].
Defined.

(** The agent is missing and the download succeeds. *)
Lemma failed_download_not_swallowed_witness :
  agent_mtime (online None) = None
  /\ result_of (update_or_download_agent W_online (online None)) = Ok tt
  /\ moves (trace_of (update_or_download_agent W_online (online None)))
     = ["/agent/wss-unified-agent.jar"%string].
Proof.
  split; [reflexivity|]. split; [reflexivity|].
  exact (proj2 (proj1 (failed_download_not_swallowed W_online (online None))
                  eq_refl eq_refl)).
Defined.

End MoreConcrete.
